(** * BowlerTrax: Analysis/process_videos.py

    A shallow embedding of the video analysis script: the frame sampler
    ([extract_frames]), the audio extractor ([extract_audio]), the
    transcriber ([load_audio_from_wav], [transcribe_audio]) and the
    orchestrator ([main]).

    Modelling conventions.
    - Python [float] arithmetic is an interface ([Arith]) with two
      instances: [Binary64], IEEE 754 double precision on Rocq's primitive
      floats (what CPython computes), and [Exact], the rationals (the
      real-number reading of the same expressions).
    - The script's effects are threaded through a state-and-exception
      monad over a [World]: the file system (a finite map from path strings
      to file contents), the console and the log of external calls.
    - External programs and libraries (the ffmpeg binary, the Whisper
      model, the video decoder) are functions of an environment [Env];
      the script's own control flow around them is modelled as written.
      File-system writes and [mkdir] are taken to succeed. *)

From Stdlib Require Import ZArith QArith Qround Qabs Lia List Sorted Bool Ascii String.
From Stdlib Require Import Floats.PrimFloat Floats.FloatOps Floats.SpecFloat Uint63.
From Stdlib Require Import DecimalString DecimalN DecimalPos Strings.Byte.
From stdpp Require Import gmap strings.
Import ListNotations.

Open Scope string_scope.
Open Scope Z_scope.

(** ** Exceptions and results *)

Inductive exn :=
| ZeroDivisionError
| ValueError
| OverflowError
| RuntimeError
| WaveError.

Inductive Res (A : Type) :=
| Ok (a : A)
| Raise (e : exn).
Arguments Ok {A} a.
Arguments Raise {A} e.

#[export] Instance Res_ret : MRet Res := fun X (x : X) => Ok x.

#[export] Instance Res_bind : MBind Res := fun X Y (f : X -> Res Y) (r : Res X) =>
  match r with
  | Ok x => f x
  | Raise e => Raise e
  end.

(** ** Python floats *)

(** The extended-real value of a float: what comparisons, [int()] and
    formatting depend on. *)
Inductive xreal :=
| XFin (q : Q)
| XInf (negative : bool)
| XNan.

Class Arith := {
  num : Type;
  of_int : Z -> num;          (* int -> float conversion *)
  fdiv : num -> num -> num;   (* division, divisor not zero *)
  fmul : num -> num -> num;
  val : num -> xreal
}.

(** Truncation toward zero of a rational. *)
Definition Qtrunc (q : Q) : Z := Z.quot (Qnum q) (Zpos (Qden q)).

(** Rounding of a rational to the nearest integer, ties to even. *)
Definition Qround_half_even (q : Q) : Z :=
  let f := Qfloor q in
  let r := (q - inject_Z f)%Q in
  match (r ?= 1 # 2)%Q with
  | Lt => f
  | Gt => f + 1
  | Eq => if Z.even f then f else f + 1
  end.

Section PythonFloat.
Context {A : Arith}.

Definition is_zero (x : num) : bool :=
  match val x with
  | XFin q => Qeq_bool q 0
  | _ => false
  end.

(** [x / y] on floats. *)
Definition py_truediv (x y : num) : Res num :=
  if is_zero y then Raise ZeroDivisionError else Ok (fdiv x y).

(** [int(x)]. *)
Definition py_int (x : num) : Res Z :=
  match val x with
  | XFin q => Ok (Qtrunc q)
  | XInf _ => Raise OverflowError
  | XNan => Raise ValueError
  end.


Definition num_lt (x y : num) : bool :=
  match val x, val y with
  | XFin p, XFin q => negb (Qle_bool q p)
  | XInf true, XFin _ | XInf true, XInf false => true
  | XFin _, XInf false => true
  | _, _ => false
  end.
End PythonFloat.

(** [a % b] on integers: the result takes the sign of the divisor, as
    [Z.modulo] does. *)
Definition py_mod (a b : Z) : Res Z :=
  if b =? 0 then Raise ZeroDivisionError else Ok (a mod b).

(** *** The two instances *)

Definition float_val (f : float) : xreal :=
  match Prim2SF f with
  | S754_zero _ => XFin 0
  | S754_finite s m e =>
      let q := match e with
               | Z0 => inject_Z (Zpos m)
               | Zpos p => inject_Z (Zpos m * 2 ^ Zpos p)
               | Zneg p => Qmake (Zpos m) (2 ^ p)%positive
               end in
      XFin (if s then Qopp q else q)
  | S754_infinity s => XInf s
  | S754_nan => XNan
  end.

(** The float nearest to an integer: below [2^53] the conversion is exact
    and primitive; beyond, the integer is rounded to nearest, ties to even
    (integers past the largest float, which Python refuses to convert, do
    not arise in the script). *)
Definition float_of_Z (z : Z) : float :=
  if Z.abs z <? 9007199254740992 then
    let m := PrimFloat.of_uint63 (Uint63.of_Z (Z.abs z)) in
    if z <? 0 then PrimFloat.opp m else m
  else SF2Prim (binary_normalize 53 1024 z 0 false).

#[export] Instance Binary64 : Arith := {|
  num := float;
  of_int := float_of_Z;
  fdiv := PrimFloat.div;
  fmul := PrimFloat.mul;
  val := float_val
|}.


(** ** Strings, paths and formatting *)

(** Split at the last occurrence of [c]. *)
Fixpoint rsplit (c : ascii) (s : string) : option (string * string) :=
  match s with
  | EmptyString => None
  | String a r =>
      match rsplit c r with
      | Some (pre, post) => Some (String a pre, post)
      | None => if Ascii.eqb a c then Some (EmptyString, r) else None
      end
  end.

(** [p / c] of pathlib. *)
Definition path_join (p c : string) : string := p +:+ "/" +:+ c.

(** [p.name]: the last component. *)
Definition path_name (p : string) : string :=
  match rsplit "/" p with
  | Some (_, n) => n
  | None => p
  end.

(** [p.stem]: the name without its last suffix; a leading or a trailing
    dot starts no suffix. *)
Definition path_stem (p : string) : string :=
  let n := path_name p in
  match rsplit "." n with
  | Some (pre, post) =>
      if (0 <? Z.of_nat (String.length pre)) && (0 <? Z.of_nat (String.length post))
      then pre else n
  | None => n
  end.

(** The proper ancestors of a path, outermost first. *)
Fixpoint ancestors_from (acc : string) (s : string) : list string :=
  match s with
  | EmptyString => []
  | String a r =>
      if Ascii.eqb a "/"
      then acc :: ancestors_from (acc +:+ "/") r
      else ancestors_from (acc +:+ String a EmptyString) r
  end.

Definition ancestors (p : string) : list string := ancestors_from EmptyString p.

(** [str(n)] for an integer. *)
Definition str_of_Z (z : Z) : string := NilZero.string_of_int (Z.to_int z).

Fixpoint zeros (n : nat) : string :=
  match n with
  | O => EmptyString
  | S k => String "0" (zeros k)
  end.

(** [format(n, "0Wd")]: the sign, then zeros up to the width, then the
    digits. *)
Definition fmt_0d (w : nat) (n : Z) : string :=
  let digits := NilZero.string_of_uint (N.to_uint (Z.to_N (Z.abs n))) in
  let sign := if n <? 0 then "-" else EmptyString in
  sign +:+ zeros (w - String.length sign - String.length digits) +:+ digits.

(** [format(x, ".Df")] of a rational: the value rounded to [D] decimals,
    ties to even. *)
Definition fmt_f_Q (d : nat) (q : Q) : string :=
  let scale := 10 ^ Z.of_nat d in
  let t := Qround_half_even (Qabs q * inject_Z scale) in
  let sign := if Qle_bool 0 q then EmptyString else "-" in
  let frac := NilZero.string_of_uint (N.to_uint (Z.to_N (t mod scale))) in
  sign +:+ NilZero.string_of_uint (N.to_uint (Z.to_N (t / scale))) +:+
  match d with
  | O => EmptyString
  | _ => "." +:+ zeros (d - String.length frac) +:+ frac
  end.

Definition fmt_f {A : Arith} (d : nat) (x : num) : string :=
  match val x with
  | XFin q => fmt_f_Q d q
  | XInf true => "-inf"
  | XInf false => "inf"
  | XNan => "nan"
  end.

(** Whitespace of [str.strip()], for code points below 256. *)
Definition is_space (c : ascii) : bool :=
  let n := Z.of_nat (nat_of_ascii c) in
  ((9 <=? n) && (n <=? 13)) || ((28 <=? n) && (n <=? 32))
  || (n =? 133) || (n =? 160).

Fixpoint lstrip (s : string) : string :=
  match s with
  | EmptyString => EmptyString
  | String a r => if is_space a then lstrip r else s
  end.

Fixpoint rstrip (s : string) : string :=
  match s with
  | EmptyString => EmptyString
  | String a r =>
      match rstrip r with
      | EmptyString => if is_space a then EmptyString else String a EmptyString
      | r' => String a r'
      end
  end.

Definition strip (s : string) : string := rstrip (lstrip s).

(** The number of newline-terminated lines of a text. *)
Fixpoint line_count (s : string) : Z :=
  match s with
  | EmptyString => 0
  | String a r => (if Ascii.eqb a "010" then 1 else 0) + line_count r
  end.

Fixpoint repeat_string (n : nat) (s : string) : string :=
  match n with
  | O => EmptyString
  | S k => s +:+ repeat_string k s
  end.

(** [str(timedelta(seconds=n))]: [OverflowError] beyond 999999999 days. *)
Definition str_timedelta (n : Z) : Res string :=
  let days := n / 86400 in
  let secs := n mod 86400 in
  if (days <? -999999999) || (999999999 <? days) then Raise OverflowError
  else
    let mm := secs / 60 in
    let ss := secs mod 60 in
    let hh := mm / 60 in
    let mm := mm mod 60 in
    let s := str_of_Z hh +:+ ":" +:+ fmt_0d 2 mm +:+ ":" +:+ fmt_0d 2 ss in
    Ok (if days =? 0 then s
        else str_of_Z days +:+ " day" +:+
             (if Z.abs days =? 1 then EmptyString else "s") +:+ ", " +:+ s).

(** ** Data model *)

Record Frame := {
  height : Z;
  width : Z;
  pixels : N                  (* the picture content, opaque *)
}.

(** [cv2.resize(frame, (w, h))]. *)
Definition resize (f : Frame) (w h : Z) : Frame :=
  {| height := h; width := w; pixels := pixels f |}.

Record VideoJob := {
  job_name : string;
  job_file : string;
  job_title : string
}.

Record VideoSummary := {
  title : string;
  frames_extracted : Z;
  frames_dir : string;
  transcript_length : Z;
  segments_count : Z;
  error : option string
}.

Section Model.
Context {A : Arith}.

(** What the decoder reports for an opened video: the two properties the
    script reads, and the frames successive [cap.read()] calls return. *)
Record Video := {
  prop_fps : num;
  prop_frame_count : num;
  decoded : list Frame
}.

Record ExtractedFrame := {
  filename : string;
  timestamp : num;
  frame_number : Z
}.

Record Segment := {
  seg_start : num;
  seg_end : num;
  seg_text : string
}.

(** The part of [model.transcribe]'s result the script uses. *)
Record Transcript := {
  full_text : string;
  segments : list Segment
}.

#[warnings="-register-all"] Inductive json :=
| JInt (z : Z)
| JNum (x : num)
| JStr (s : string)
| JArr (l : list json)
| JObj (l : list (string * json)).

(** [d[k]] on a JSON object. *)
Fixpoint assoc_get {V : Type} (k : string) (l : list (string * V)) : option V :=
  match l with
  | [] => None
  | (k', v) :: r => if String.eqb k k' then Some v else assoc_get k r
  end.

(** [d[k] = v] on a Python dict: an existing key keeps its place. *)
Fixpoint assoc_set {V : Type} (k : string) (v : V) (l : list (string * V))
  : list (string * V) :=
  match l with
  | [] => [(k, v)]
  | (k', v') :: r =>
      if String.eqb k k' then (k, v) :: r else (k', v') :: assoc_set k v r
  end.

Definition json_get (k : string) (j : json) : option json :=
  match j with
  | JObj l => assoc_get k l
  | _ => None
  end.

Definition frame_json (f : ExtractedFrame) : json :=
  JObj [("filename", JStr (filename f));
        ("timestamp", JNum (timestamp f));
        ("frame_number", JInt (frame_number f))].

Definition segment_json (s : Segment) : json :=
  JObj [("start", JNum (seg_start s));
        ("end", JNum (seg_end s));
        ("text", JStr (strip (seg_text s)))].

Definition summary_json (s : VideoSummary) : json :=
  JObj ([("title", JStr (title s));
         ("frames_extracted", JInt (frames_extracted s));
         ("frames_dir", JStr (frames_dir s));
         ("transcript_length", JInt (transcript_length s));
         ("segments_count", JInt (segments_count s))]
        ++ match error s with
           | Some e => [("error", JStr e)]
           | None => []
           end).

(** ** The world *)

Inductive File :=
| FDir
| FVideo (v : Video)
| FWav (frames : list byte)       (* the sample bytes [readframes] returns *)
| FJpeg (quality : Z) (img : Frame)
| FText (s : string)
| FJson (j : json)
| FOther.

Inductive Call :=
| CallFfmpeg (cmd : list string)
| CallLoadModel (model_name : string)
| CallTranscribe (model_name : string) (audio : list num).

Record World := {
  fs : gmap string File;
  console : list string;
  calls : list Call
}.

(** What a finished external process leaves: its exit code, its error
    output, and the file it wrote at its output path, if any. *)
Record ProcResult := {
  returncode : Z;
  stderr : string;
  written : option File
}.

Record Env := {
  get_ffmpeg_exe : option string;
  run_ffmpeg : list string -> gmap string File -> ProcResult;
  load_model : string -> bool;
  model_transcribe : string -> list num -> option Transcript
}.

(** ** The state and exception monad *)

Definition M (X : Type) : Type := World -> Res X * World.

#[export] Instance M_ret : MRet M := fun X (x : X) w => (Ok x, w).

#[export] Instance M_bind : MBind M := fun X Y (f : X -> M Y) (m : M X) w =>
  match m w with
  | (Ok x, w') => f x w'
  | (Raise e, w') => (Raise e, w')
  end.

Definition raise {X : Type} (e : exn) : M X := fun w => (Raise e, w).

Definition lift {X : Type} (r : Res X) : M X := fun w => (r, w).

Definition print (s : string) : M unit := fun w =>
  (Ok tt, {| fs := fs w; console := console w ++ [s]; calls := calls w |}).

(** A world with more console output. *)
Definition said (w : World) (lines : list string) : World :=
  {| fs := fs w; console := (console w ++ lines)%list; calls := calls w |}.

Definition log_call (c : Call) : M unit := fun w =>
  (Ok tt, {| fs := fs w; console := console w; calls := calls w ++ [c] |}).

Definition set_fs (f : gmap string File) : M unit := fun w =>
  (Ok tt, {| fs := f; console := console w; calls := calls w |}).

Definition get_fs : M (gmap string File) := fun w => (Ok (fs w), w).

(** [p.exists()]. *)
Definition path_exists (p : string) : M bool :=
  f ← get_fs; mret (bool_decide (is_Some (f !! p))).

Definition write_file (p : string) (c : File) : M unit :=
  f ← get_fs; set_fs (<[p := c]> f).

(** [f.write(s)] on a text file opened for writing. *)
Definition append_text (p : string) (s : string) : M unit :=
  f ← get_fs;
  match f !! p with
  | Some (FText t) => set_fs (<[p := FText (t +:+ s)]> f)
  | _ => set_fs (<[p := FText s]> f)
  end.

Definition mkdir_one (f : gmap string File) (p : string) : gmap string File :=
  match f !! p with
  | Some _ => f
  | None => <[p := FDir]> f
  end.

(** [p.mkdir(parents=True, exist_ok=True)]. *)
Definition mkdir (p : string) : M unit :=
  f ← get_fs; set_fs (fold_left mkdir_one (ancestors p ++ [p]) f).

(** ** Configuration *)

Definition BASE_DIR : string := "D:/Projects/BowlerTrax".
Definition VIDEOS_DIR : string := path_join BASE_DIR "Videos".
Definition ANALYSIS_DIR : string := path_join BASE_DIR "Analysis".
Definition FRAMES_DIR : string := path_join ANALYSIS_DIR "frames".
Definition TRANSCRIPTS_DIR : string := path_join ANALYSIS_DIR "transcripts".

Definition VIDEOS : list VideoJob := [
  {| job_name := "video1_zvl_rev_rate";
     job_file := "FIND YOUR REV RATE AND GET VIDEOS! Lanetrax MAJOR Update! - ZVL Bowling (1080p, h264, youtube).mp4";
     job_title := "ZVL Bowling - Find Your Rev Rate (LaneTrax Major Update)" |};
  {| job_name := "video2_joshua_review";
     job_file := "LaneTrax Bowling App Review  Setup, Features & How It Works - Joshua Tajiri Bowling (1080p, h264, youtube).mp4";
     job_title := "Joshua Tajiri - LaneTrax App Review, Setup & Features" |};
  {| job_name := "video3_zvl_specto";
     job_file := "SPECTO AS AN APP Lanetrax - Find Your Rev Rate and Speed Easily! - ZVL Bowling (1080p, h264, youtube).mp4";
     job_title := "ZVL Bowling - Specto as an App (LaneTrax)" |}
].

Definition nl : string := String "010" EmptyString.

(** ** Transcriber: the WAV loader *)

(** One signed 16-bit sample, in the byte order of the machines the
    script runs on (little-endian). *)
Definition int16_le (lo hi : byte) : Z :=
  let u := Z.of_N (Byte.to_N lo) + 256 * Z.of_N (Byte.to_N hi) in
  if u <? 32768 then u else u - 65536.

(** [np.frombuffer(frames, dtype=np.int16)]: a buffer that is not a whole
    number of samples is a [ValueError]. *)
Fixpoint frombuffer_int16 (bs : list byte) : Res (list Z) :=
  match bs with
  | [] => Ok []
  | [_] => Raise ValueError
  | lo :: hi :: rest =>
      match frombuffer_int16 rest with
      | Ok l => Ok (int16_le lo hi :: l)
      | Raise e => Raise e
      end
  end.

(** [.astype(np.float32) / 32768.0] on one sample. A 16-bit integer and
    its quotient by [2^15] are representable in single precision, so the
    single-precision result is the double-precision one. *)
Definition normalize_sample (s : Z) : num := fdiv (of_int s) (of_int 32768).

Definition decode_samples (frames : list byte) : Res (list num) :=
  match frombuffer_int16 frames with
  | Ok l => Ok (map normalize_sample l)
  | Raise e => Raise e
  end.

(** [wave.open] fails on a path that holds no WAV; the [sr] argument is
    not used by the source. *)
Definition load_audio_from_wav (file_path : string) : M (list num) :=
  f ← get_fs;
  match f !! file_path with
  | Some (FWav frames) => lift (decode_samples frames)
  | _ => raise WaveError
  end.

(** ** Audio extractor *)

Variable env : Env.

Definition locate_ffmpeg : M string :=
  match get_ffmpeg_exe env with
  | Some exe => mret exe
  | None => raise RuntimeError
  end.

(** [subprocess.run(cmd, capture_output=True, text=True)] for the
    transcoder, whose output path is the last argument. *)
Definition subprocess_run (cmd : list string) : M ProcResult :=
  log_call (CallFfmpeg cmd);;
  f ← get_fs;
  let r := run_ffmpeg env cmd f in
  match written r return M unit with
  | Some c => set_fs (<[List.last cmd EmptyString := c]> f)
  | None => mret tt
  end;;
  mret r.

(** The transcoder's command line: no video, 16-bit PCM, 16 kHz, mono,
    overwrite. *)
Definition ffmpeg_command (ffmpeg_exe video_path audio_file : string) : list string :=
  [ffmpeg_exe; "-i"; video_path; "-vn"; "-acodec"; "pcm_s16le";
   "-ar"; "16000"; "-ac"; "1"; "-y"; audio_file].

Definition extract_audio (video_path output_path : string) : M (option string) :=
  ffmpeg_exe ← locate_ffmpeg;
  let audio_file := path_join output_path (path_stem video_path +:+ ".wav") in
  present ← path_exists audio_file;
  if (present : bool) then
    print ("  Audio file already exists: " +:+ path_name audio_file);;
    mret (Some audio_file)
  else
    print ("  Extracting audio to: " +:+ path_name audio_file);;
    let cmd := ffmpeg_command ffmpeg_exe video_path audio_file in
    result ← subprocess_run cmd;
    if negb (returncode result =? 0) then
      print ("  ERROR extracting audio: " +:+ stderr result);;
      mret None
    else mret (Some audio_file).

(** ** Frame sampler *)

(** [cv2.VideoCapture(path)]: opened exactly when the path holds a video
    the decoder reads. *)
Definition VideoCapture (video_path : string) : M (option Video) :=
  f ← get_fs;
  match f !! video_path with
  | Some (FVideo v) => mret (Some v)
  | _ => mret None
  end.

(** The stride between two kept frames. *)
Definition frame_interval_of (fps fps_sample : num) : Res Z :=
  match py_truediv fps fps_sample with
  | Ok q => py_int q
  | Raise e => Raise e
  end.

(** "Resize to reasonable size for analysis". *)
Definition downscale (frame : Frame) : Res Frame :=
  if 1280 <? width frame then
    match py_truediv (of_int 1280) (of_int (width frame)) with
    | Ok scale =>
        match py_int (fmul (of_int (width frame)) scale),
              py_int (fmul (of_int (height frame)) scale) with
        | Ok w, Ok h => Ok (resize frame w h)
        | Raise e, _ | _, Raise e => Raise e
        end
    | Raise e => Raise e
    end
  else Ok frame.

Definition frame_filename (saved_count : Z) (timestamp : num) : string :=
  "frame_" +:+ fmt_0d 4 saved_count +:+ "_t" +:+ fmt_f 1 timestamp +:+ "s.jpg".

(** [cv2.imwrite(path, frame, [cv2.IMWRITE_JPEG_QUALITY, q])]. *)
Definition imwrite (p : string) (frame : Frame) (quality : Z) : M unit :=
  write_file p (FJpeg quality frame).

(** The [while True] loop over [cap.read()]: [frames] are the frames still
    to be read. *)
Fixpoint frame_loop (fps : num) (frame_interval : Z) (output_dir : string)
    (frames : list Frame) (frame_count saved_count : Z)
    (extracted_frames : list ExtractedFrame)
    : M (Z * list ExtractedFrame) :=
  match frames with
  | [] => mret (saved_count, extracted_frames)
  | frame :: rest =>
      r ← lift (py_mod frame_count frame_interval);
      if (r : Z) =? 0 then
        timestamp ← lift (py_truediv (of_int frame_count) fps);
        let filename := frame_filename saved_count timestamp in
        let filepath := path_join output_dir filename in
        frame' ← lift (downscale frame);
        imwrite filepath frame' 85;;
        let extracted_frames :=
          (extracted_frames ++ [{| filename := filename;
                                   timestamp := timestamp;
                                   frame_number := frame_count |}])%list in
        let saved_count := saved_count + 1 in
        (if saved_count mod 50 =? 0
         then print ("  Extracted " +:+ str_of_Z saved_count +:+ " frames...")
         else mret tt);;
        frame_loop fps frame_interval output_dir rest (frame_count + 1)
                   saved_count extracted_frames
      else
        frame_loop fps frame_interval output_dir rest (frame_count + 1)
                   saved_count extracted_frames
  end.

Definition extract_frames (video_path output_dir : string) (fps_sample : num)
    : M (list ExtractedFrame) :=
  print (nl +:+ "Extracting frames from: " +:+ path_name video_path);;
  cap ← VideoCapture video_path;
  match cap with
  | None =>
      print "  ERROR: Could not open video";;
      mret []
  | Some v =>
      let fps := prop_fps v in
      total_frames ← lift (py_int (prop_frame_count v));
      duration ← lift (py_truediv (of_int total_frames) fps);
      print ("  Video FPS: " +:+ fmt_f 2 fps +:+ ", Duration: " +:+
             fmt_f 1 duration +:+ "s, Total frames: " +:+ str_of_Z total_frames);;
      frame_interval ← lift (frame_interval_of fps fps_sample);
      mkdir output_dir;;
      '(saved_count, extracted_frames) ←
        frame_loop fps frame_interval output_dir (decoded v) 0 0 [];
      print ("  Completed: " +:+ str_of_Z saved_count +:+ " frames extracted");;
      let index_file := path_join output_dir "frame_index.json" in
      write_file index_file (FJson (JArr (map frame_json extracted_frames)));;
      mret extracted_frames
  end.

(** ** Transcriber *)

(** One line of the text transcript, with its newline. *)
Definition segment_line (segment : Segment) : Res string :=
  start_s ← py_int (seg_start segment);
  start ← str_timedelta start_s;
  end_s ← py_int (seg_end segment);
  end_ ← str_timedelta end_s;
  let text := strip (seg_text segment) in
  mret ("[" +:+ start +:+ " - " +:+ end_ +:+ "] " +:+ text +:+ nl).

Fixpoint write_segments (p : string) (segs : list Segment) : M unit :=
  match segs with
  | [] => mret tt
  | segment :: rest =>
      line ← lift (segment_line segment);
      append_text p line;;
      write_segments p rest
  end.

Definition transcript_json (result : Transcript) : json :=
  JObj [("text", JStr (full_text result));
        ("segments", JArr (map segment_json (segments result)))].

Definition transcribe_audio (audio_path output_dir : string) (model_name : string)
    : M Transcript :=
  print (nl +:+ "Transcribing: " +:+ path_name audio_path);;
  print ("  Loading Whisper model '" +:+ model_name +:+ "'...");;
  log_call (CallLoadModel model_name);;
  (if load_model env model_name then mret tt else raise RuntimeError);;
  print "  Loading audio from WAV file...";;
  audio ← load_audio_from_wav audio_path;
  print "  Transcribing audio (this may take a while)...";;
  log_call (CallTranscribe model_name audio);;
  result ← match model_transcribe env model_name audio with
           | Some r => mret r
           | None => raise RuntimeError
           end;
  let transcript_file :=
    path_join output_dir (path_stem audio_path +:+ "_transcript.txt") in
  write_file transcript_file (FText EmptyString);;
  append_text transcript_file
    ("# Transcript: " +:+ path_stem audio_path +:+ nl +:+ nl);;
  write_segments transcript_file (segments result);;
  let json_file :=
    path_join output_dir (path_stem audio_path +:+ "_transcript.json") in
  write_file json_file (FJson (transcript_json result));;
  print ("  Saved transcript to: " +:+ path_name transcript_file);;
  print ("  Full text length: " +:+
         str_of_Z (Z.of_nat (String.length (full_text result))) +:+ " characters");;
  print ("  Segments: " +:+ str_of_Z (Z.of_nat (length (segments result))));;
  mret result.

(** ** Orchestrator *)

Definition banner : string := repeat_string 60 "=".

(** The literal [0.5]. *)
Definition one_half : num := fdiv (of_int 1) (of_int 2).

(** The body of the [for] loop of [main] for one job; a missing source
    leaves [results] as they are (the [continue]). *)
Definition process_video (i : Z) (video_info : VideoJob)
    (results : list (string * VideoSummary)) : M (list (string * VideoSummary)) :=
  print (nl +:+ banner);;
  print ("Processing Video " +:+ str_of_Z i +:+ "/3: " +:+ job_title video_info);;
  print banner;;
  let video_path := path_join VIDEOS_DIR (job_file video_info) in
  present ← path_exists video_path;
  if negb (present : bool) then
    print ("  ERROR: Video file not found: " +:+ video_path);;
    mret results
  else
    let video_name := job_name video_info in
    let frames_output := path_join FRAMES_DIR video_name in
    frames ← extract_frames video_path frames_output one_half;
    audio_file ← extract_audio video_path TRANSCRIPTS_DIR;
    audio_ok ← match audio_file return M bool with
               | Some p => path_exists p
               | None => mret false
               end;
    match audio_file, (audio_ok : bool) with
    | Some p, true =>
        transcript ← transcribe_audio p TRANSCRIPTS_DIR "base";
        mret (assoc_set video_name
                {| title := job_title video_info;
                   frames_extracted := Z.of_nat (length (frames : list ExtractedFrame));
                   frames_dir := frames_output;
                   transcript_length :=
                     Z.of_nat (String.length (full_text (transcript : Transcript)));
                   segments_count := Z.of_nat (length (segments transcript));
                   error := None |} results)
    | _, _ =>
        mret (assoc_set video_name
                {| title := job_title video_info;
                   frames_extracted := Z.of_nat (length frames);
                   frames_dir := frames_output;
                   transcript_length := 0;
                   segments_count := 0;
                   error := Some "Audio extraction failed" |} results)
    end.

Fixpoint run_jobs (jobs : list VideoJob) (i : Z)
    (results : list (string * VideoSummary)) : M (list (string * VideoSummary)) :=
  match jobs with
  | [] => mret results
  | video_info :: rest =>
      results' ← process_video i video_info results;
      run_jobs rest (i + 1) results'
  end.

Definition results_json (results : list (string * VideoSummary)) : json :=
  JObj (map (fun kv => (fst kv, summary_json (snd kv))) results).

Fixpoint report (results : list (string * VideoSummary)) : M unit :=
  match results with
  | [] => mret tt
  | (name, data) :: rest =>
      print (nl +:+ title data +:+ ":");;
      print ("  - Frames: " +:+ str_of_Z (frames_extracted data));;
      print ("  - Transcript segments: " +:+ str_of_Z (segments_count data));;
      report rest
  end.

Definition summary_file : string := path_join ANALYSIS_DIR "analysis_summary.json".

(** The end of [main]: "Save summary" and the console report. *)
Definition save_summary (results : list (string * VideoSummary)) : M unit :=
  write_file summary_file (FJson (results_json results));;
  print (nl +:+ banner);;
  print "ANALYSIS COMPLETE";;
  print banner;;
  report results.

(** [main], for a list of jobs. *)
Definition main_with (videos : list VideoJob) : M unit :=
  print banner;;
  print "LaneTrax Video Analysis - Frame Extraction & Transcription";;
  print banner;;
  ffmpeg_exe ← locate_ffmpeg;
  print (nl +:+ "Using ffmpeg from: " +:+ ffmpeg_exe);;
  mkdir TRANSCRIPTS_DIR;;
  results ← run_jobs videos 1 [];
  save_summary results.

Definition main : M unit := main_with VIDEOS.

End Model.

(** ** Names used in the statements *)

(** What the orchestrator prints at the start of job [i]. *)
Definition job_banner (i : Z) (video_info : VideoJob) : list string :=
  [nl +:+ banner;
   "Processing Video " +:+ str_of_Z i +:+ "/3: " +:+ job_title video_info;
   banner].

Definition job_video_path (video_info : VideoJob) : string :=
  path_join VIDEOS_DIR (job_file video_info).

(** The deterministic path of the WAV extracted from a video. *)
Definition audio_target (video_path output_path : string) : string :=
  path_join output_path (path_stem video_path +:+ ".wav").

(** The summary entry of a job whose audio extraction failed. *)
Definition failed_summary (video_info : VideoJob) (frames : Z) : VideoSummary :=
  {| title := job_title video_info;
     frames_extracted := frames;
     frames_dir := path_join FRAMES_DIR (job_name video_info);
     transcript_length := 0;
     segments_count := 0;
     error := Some "Audio extraction failed" |}.

(** The world after the transcoder ran on [cmd]. *)
Definition after_ffmpeg {A : Arith} (env : Env) (cmd : list string) (w : World)
    : World :=
  {| fs := match written (run_ffmpeg env cmd (fs w)) with
           | Some c => <[List.last cmd EmptyString := c]> (fs w)
           | None => fs w
           end;
     console := console w;
     calls := (calls w ++ [CallFfmpeg cmd])%list |}.

(** The world in which [main] starts its loop: after its first prints and
    the creation of the transcripts directory. *)
Definition after_prelude {A : Arith} (exe : string) (w : World) : World :=
  snd (mkdir TRANSCRIPTS_DIR
         (said w [banner;
                  "LaneTrax Video Analysis - Frame Extraction & Transcription";
                  banner;
                  nl +:+ "Using ffmpeg from: " +:+ exe])).

(** The summary entry of a job that was transcribed. *)
Definition transcribed_summary {A : Arith} (video_info : VideoJob) (frames : Z)
    (transcript : Transcript) : VideoSummary :=
  {| title := job_title video_info;
     frames_extracted := frames;
     frames_dir := path_join FRAMES_DIR (job_name video_info);
     transcript_length := Z.of_nat (String.length (full_text transcript));
     segments_count := Z.of_nat (length (segments transcript));
     error := None |}.

(** The entry of a job in the persisted summary, if the summary was
    written and has one. *)
Definition summary_entry {A : Arith} (w : World) (name : string) : option json :=
  match fs w !! summary_file with
  | Some (FJson sj) => json_get name sj
  | _ => None
  end.

(** The two files [transcribe_audio] writes. *)
Definition transcript_txt_path (audio_path output_dir : string) : string :=
  path_join output_dir (path_stem audio_path +:+ "_transcript.txt").

Definition transcript_json_path (audio_path output_dir : string) : string :=
  path_join output_dir (path_stem audio_path +:+ "_transcript.json").

(** The number of lines of the text file at [p]. *)
Definition text_lines {A : Arith} (w : World) (p : string) : option Z :=
  match fs w !! p with
  | Some (FText t) => Some (line_count t)
  | _ => None
  end.

(** The number of segments of the JSON transcript at [p]. *)
Definition json_segment_count {A : Arith} (w : World) (p : string) : option Z :=
  match fs w !! p with
  | Some (FJson j) =>
      match json_get "segments" j with
      | Some (JArr l) => Some (Z.of_nat (length l))
      | _ => None
      end
  | _ => None
  end.

(** ** Sample environments and worlds *)

Definition hd_video (l : list VideoJob) : VideoJob :=
  hd {| job_name := EmptyString; job_file := EmptyString;
        job_title := EmptyString |} l.


Definition world_empty {A : Arith} : World :=
  {| fs := ∅; console := []; calls := [] |}.

(** An environment whose transcoder always fails with exit code 1. *)
Definition env_failing {A : Arith} : Env :=
  {| get_ffmpeg_exe := Some "ffmpeg";
     run_ffmpeg := fun _ _ => {| returncode := 1; stderr := "failed"; written := None |};
     load_model := fun _ => true;
     model_transcribe := fun _ _ => None |}.

(** An environment whose model hears one segment. *)
Definition env_one_segment {A : Arith} : Env :=
  {| get_ffmpeg_exe := Some "ffmpeg";
     run_ffmpeg := fun _ _ => {| returncode := 0; stderr := EmptyString; written := None |};
     load_model := fun _ => true;
     model_transcribe := fun _ _ =>
       Some {| full_text := " Hello there.";
               segments := [{| seg_start := of_int 0;
                               seg_end := fdiv (of_int 5) (of_int 2);
                               seg_text := " Hello there." |}] |} |}.

(** An environment whose transcoder fails with exit code 1 after having
    written a file at its output path. *)
Definition env_partial_output {A : Arith} : Env :=
  {| get_ffmpeg_exe := Some "ffmpeg";
     run_ffmpeg := fun _ _ =>
       {| returncode := 1; stderr := "interrupted"; written := Some (FWav []) |};
     load_model := fun _ => true;
     model_transcribe := fun _ _ => None |}.

(** An environment whose model returns a second segment that starts at a
    NaN. *)
Definition env_nan_segment {A : Arith} : Env :=
  {| get_ffmpeg_exe := Some "ffmpeg";
     run_ffmpeg := fun _ _ => {| returncode := 0; stderr := EmptyString; written := None |};
     load_model := fun _ => true;
     model_transcribe := fun _ _ =>
       Some {| full_text := " One. Two.";
               segments := [{| seg_start := of_int 0;
                               seg_end := of_int 1;
                               seg_text := " One." |};
                            {| seg_start := fdiv (of_int 0) (of_int 0);
                               seg_end := of_int 2;
                               seg_text := " Two." |}] |} |}.

Definition world_with {A : Arith} (p : string) (c : File) : World :=
  {| fs := {[ p := c ]}; console := []; calls := [] |}.

(** A world that holds the source video of a job and a WAV at the place
    where the audio extractor looks for it. *)
Definition world_video_wav {A : Arith} (j : VideoJob) (v : Video)
    (frames : list byte) : World :=
  {| fs := <[audio_target (job_video_path j) TRANSCRIPTS_DIR := FWav frames]>
             {[ job_video_path j := FVideo v ]};
     console := []; calls := [] |}.

(** A decoded clip of [n] frames of [w] by [h] pixels whose reported
    frame count is [n]. *)
Definition clip {A : Arith} (fps : num) (n : nat) (w h : Z) : Video :=
  {| prop_fps := fps;
     prop_frame_count := of_int (Z.of_nat n);
     decoded := repeat {| height := h; width := w; pixels := 0 |} n |}.

(** ** Checking all 16-bit samples *)

(** [n] consecutive integers from [lo]. *)
Fixpoint zrange (n : nat) (lo : Z) : list Z :=
  match n with
  | O => []
  | S k => lo :: zrange k (lo + 1)
  end.




(** ** What the sampler keeps *)

(** The frame numbers kept among [n] frames read from number [start]: the
    multiples of the stride. *)
Definition kept_numbers (stride start : Z) (n : nat) : list Z :=
  List.filter (fun k => k mod stride =? 0) (zrange n start).

(** The manifest entries of the kept frame numbers [ks], the first of them
    being saved under the sequence index [saved]. *)
Fixpoint entries {A : Arith} (fps : num) (saved : Z) (ks : list Z)
    : list ExtractedFrame :=
  match ks with
  | [] => []
  | k :: rest =>
      {| filename := frame_filename saved (fdiv (of_int k) fps);
         timestamp := fdiv (of_int k) fps;
         frame_number := k |} :: entries fps (saved + 1) rest
  end.

(** The stride in the spec's words: [round(source_fps / sampling_rate)]. *)
Definition spec_stride {A : Arith} (fps fps_sample : num) : option Z :=
  match val (fdiv fps fps_sample) with
  | XFin q => Some (Qround_half_even q)
  | _ => None
  end.


Definition frame_numbers_of {A : Arith} (r : Res (list ExtractedFrame)) : Res (list Z) :=
  match r with
  | Ok l => Ok (map frame_number l)
  | Raise e => Raise e
  end.


Definition filenames_of {A : Arith} (r : Res (list ExtractedFrame)) : Res (list string) :=
  match r with
  | Ok l => Ok (map filename l)
  | Raise e => Raise e
  end.

(** ** Relating the world before and after a computation *)

(** [m] takes every world to one related to it by [R], whether it returns
    or raises. *)
Definition respects {A : Arith} {X : Type} (R : World -> World -> Prop) (m : M X)
    : Prop :=
  forall w, R w (snd (m w)).

(** No external call was logged. *)
Definition same_calls {A : Arith} (w w' : World) : Prop := calls w' = calls w.

(** Every file that existed at a path satisfying [Q] is still there,
    unchanged. *)
Definition keeps_files {A : Arith} (Q : string -> Prop) (w w' : World) : Prop :=
  forall p c, Q p -> fs w !! p = Some c -> fs w' !! p = Some c.

(** Nothing changed at the paths outside [T]: no file there was written,
    created or removed. *)
Definition same_outside {A : Arith} (T : string -> Prop) (w w' : World) : Prop :=
  forall p, ~ T p -> fs w' !! p = fs w !! p.



Definition is_digit (c : ascii) : bool :=
  match c with
  | "0" | "1" | "2" | "3" | "4" | "5" | "6" | "7" | "8" | "9" => true
  | _ => false
  end%char.


(** The shape [H:MM:SS]: one digit, and two pairs of digits. *)
Definition is_h_mm_ss (s : string) : bool :=
  match s with
  | String h (String ":" (String m1 (String m2
      (String ":" (String s1 (String s2 EmptyString)))))) =>
      is_digit h && is_digit m1 && is_digit m2 && is_digit s1 && is_digit s2
  | _ => false
  end.

(** [p] is a path below the directory [dir]. *)
Definition under (dir p : string) : Prop := exists x, p = path_join dir x.

(** * Properties *)

(** ** Running the monad *)

Section Run.
Context {A : Arith}.

Lemma bind_ok {X Y : Type} (m : M X) (f : X -> M Y) (w w' : World) (x : X) :
  m w = (Ok x, w') -> (m ≫= f) w = f x w'.
Proof. intros H. unfold mbind, M_bind. now rewrite H. Qed.

Lemma bind_raise {X Y : Type} (m : M X) (f : X -> M Y) (w w' : World) (e : exn) :
  m w = (Raise e, w') -> (m ≫= f) w = (Raise e, w').
Proof. intros H. unfold mbind, M_bind. now rewrite H. Qed.

Lemma print_said (s : string) (w : World) : print s w = (Ok tt, said w [s]).
Proof. reflexivity. Qed.

Lemma said_said (w : World) (l1 l2 : list string) :
  said (said w l1) l2 = said w (l1 ++ l2)%list.
Proof. unfold said. simpl. now rewrite <- app_assoc. Qed.

End Run.

(** Case analysis on the first computation of a bind in [H]. *)
Ltac bind_cases H :=
  match type of H with
  | (?m ≫= ?f) ?w = _ =>
      let r := fresh "r" in
      let e := fresh "e" in
      let w' := fresh "w" in
      let E := fresh "E" in
      destruct (m w) as [[r|e] w'] eqn:E;
      [ rewrite (bind_ok _ _ _ _ _ E) in H
      | rewrite (bind_raise _ _ _ _ _ E) in H; try discriminate H ]
  end.

(** One step of a bind whose first computation evaluates. *)
Ltac bind_run := erewrite bind_ok by reflexivity.

Ltac run_step :=
  unfold mbind, M_bind, mret, M_ret, print, lift, raise, get_fs, set_fs,
    log_call, path_exists, write_file; simpl.

(** ** C10: a source that does not open *)

Section Unopened.
Context {A : Arith}.

Lemma VideoCapture_closed (video_path : string) (w : World) :
  (forall v, fs w !! video_path <> Some (FVideo v)) ->
  VideoCapture video_path w = (Ok None, w).
Proof.
  intros H. unfold VideoCapture. run_step.
  destruct (fs w !! video_path) as [[]|] eqn:E; try reflexivity.
  now destruct (H v).
Qed.

(** C10: when the source cannot be opened, [extract_frames] returns the
    empty list and only prints: the file system is the one it started
    from, so neither the output directory nor [frame_index.json] is
    created, and nothing external is called. *)
Theorem extract_frames_unopened (video_path output_dir : string)
    (fps_sample : num) (w : World) :
  (forall v, fs w !! video_path <> Some (FVideo v)) ->
  exists w',
    extract_frames video_path output_dir fps_sample w = (Ok [], w') /\
    fs w' = fs w /\
    fs w' !! output_dir = fs w !! output_dir /\
    fs w' !! path_join output_dir "frame_index.json"
      = fs w !! path_join output_dir "frame_index.json" /\
    calls w' = calls w.
Proof.
  intros H. unfold extract_frames.
  eexists. split.
  - rewrite (bind_ok _ _ _ _ _ (print_said _ w)).
    rewrite (bind_ok _ _ _ _ None (VideoCapture_closed video_path (said w _) H)).
    rewrite (bind_ok _ _ _ _ _ (print_said _ _)).
    reflexivity.
  - simpl. auto.
Qed.

End Unopened.

(** ** C5: audio extraction reuses an existing WAV *)

Section Idempotence.
Context {A : Arith}.
Variable env : Env.

Lemma path_exists_present (p : string) (c : File) (w : World) :
  fs w !! p = Some c -> path_exists p w = (Ok true, w).
Proof.
  intros H. unfold path_exists. run_step. rewrite H.
  rewrite bool_decide_eq_true_2; [reflexivity | eauto].
Qed.

Lemma path_exists_absent (p : string) (w : World) :
  fs w !! p = None -> path_exists p w = (Ok false, w).
Proof.
  intros H. unfold path_exists. run_step. rewrite H.
  rewrite bool_decide_eq_false_2; [reflexivity | ].
  intros [x Hx]. discriminate.
Qed.

Lemma locate_ffmpeg_found (exe : string) (w : World) :
  get_ffmpeg_exe env = Some exe -> locate_ffmpeg env w = (Ok exe, w).
Proof. intros H. unfold locate_ffmpeg. now rewrite H. Qed.

(** C5: when the target WAV (output directory, source stem, [.wav])
    already exists, [extract_audio] returns its path, calls no external
    program, and leaves every file, the WAV included, as it was. *)
Theorem extract_audio_reuses_existing (video_path output_path exe : string)
    (c : File) (w : World) :
  get_ffmpeg_exe env = Some exe ->
  fs w !! path_join output_path (path_stem video_path +:+ ".wav") = Some c ->
  exists w',
    extract_audio env video_path output_path w
      = (Ok (Some (path_join output_path (path_stem video_path +:+ ".wav"))), w') /\
    calls w' = calls w /\
    fs w' = fs w /\
    fs w' !! path_join output_path (path_stem video_path +:+ ".wav") = Some c.
Proof.
  intros Hexe Hc. unfold extract_audio.
  rewrite (bind_ok _ _ _ _ _ (locate_ffmpeg_found exe w Hexe)).
  rewrite (bind_ok _ _ _ _ _ (path_exists_present _ c w Hc)).
  rewrite (bind_ok _ _ _ _ _ (print_said _ w)).
  eexists. split; [reflexivity | ]. simpl. auto.
Qed.

End Idempotence.

Lemma extract_audio_reuses_existing_witness :
  exists w',
    extract_audio (A := Binary64) env_failing "Videos/clip.mp4" "out"
                  (world_with "out/clip.wav" (FWav []))
      = (Ok (Some "out/clip.wav"), w') /\
    calls w' = [] /\
    fs w' = {[ "out/clip.wav" := FWav [] ]} /\
    fs w' !! "out/clip.wav" = Some (FWav []).
Proof.
  exact (extract_audio_reuses_existing env_failing "Videos/clip.mp4" "out" "ffmpeg"
           (FWav []) (world_with "out/clip.wav" (FWav []))
           eq_refl eq_refl).
Defined.

Lemma extract_frames_unopened_witness :
  exists w',
    extract_frames (A := Binary64) "Videos/clip.mp4" "out" one_half world_empty
      = (Ok [], w') /\
    fs w' = ∅ /\
    fs w' !! "out" = None /\
    fs w' !! "out/frame_index.json" = None /\
    calls w' = [].
Proof.
  apply (extract_frames_unopened (A := Binary64) "Videos/clip.mp4" "out" one_half
           world_empty).
  intros v H. discriminate H.
Defined.

(** ** C3: a missing source file *)

Section Orchestrator.
Context {A : Arith}.
Variable env : Env.

Lemma process_video_banner (i : Z) (j : VideoJob)
    (results : list (string * VideoSummary)) (w : World) :
  process_video env i j results w
  = (present ← path_exists (job_video_path j);
     if negb (present : bool) then
       print ("  ERROR: Video file not found: " +:+ job_video_path j);;
       mret results
     else
       frames ← extract_frames (job_video_path j)
                  (path_join FRAMES_DIR (job_name j)) one_half;
       audio_file ← extract_audio env (job_video_path j) TRANSCRIPTS_DIR;
       audio_ok ← match audio_file return M bool with
                  | Some p => path_exists p
                  | None => mret false
                  end;
       match audio_file, (audio_ok : bool) with
       | Some p, true =>
           transcript ← transcribe_audio env p TRANSCRIPTS_DIR "base";
           mret (assoc_set (job_name j)
                   {| title := job_title j;
                      frames_extracted := Z.of_nat (length (frames : list ExtractedFrame));
                      frames_dir := path_join FRAMES_DIR (job_name j);
                      transcript_length :=
                        Z.of_nat (String.length (full_text (transcript : Transcript)));
                      segments_count := Z.of_nat (length (segments transcript));
                      error := None |} results)
       | _, _ =>
           mret (assoc_set (job_name j)
                   (failed_summary j (Z.of_nat (length frames))) results)
       end) (said w (job_banner i j)).
Proof.
  unfold process_video.
  rewrite (bind_ok _ _ _ _ _ (print_said _ w)).
  rewrite (bind_ok _ _ _ _ _ (print_said _ _)).
  rewrite (bind_ok _ _ _ _ _ (print_said _ _)).
  rewrite !said_said. reflexivity.
Qed.

(** C3, as the code has it: a job whose source file is missing when its
    turn comes adds no entry to the results (they are returned as they
    were), touches no file, calls nothing, raises nothing, and the loop
    goes on with the remaining jobs. *)
Theorem missing_source_is_skipped (i : Z) (j : VideoJob) (rest : list VideoJob)
    (results : list (string * VideoSummary)) (w : World) :
  fs w !! job_video_path j = None ->
  exists w1,
    process_video env i j results w = (Ok results, w1) /\
    fs w1 = fs w /\
    calls w1 = calls w /\
    run_jobs env (j :: rest) i results w = run_jobs env rest (i + 1) results w1.
Proof.
  intros Hmiss.
  assert (Hstep : process_video env i j results w
                  = (Ok results,
                     said (said w (job_banner i j))
                       ["  ERROR: Video file not found: " +:+ job_video_path j])).
  { rewrite process_video_banner.
    rewrite (bind_ok _ _ _ _ false (path_exists_absent _ (said w _) Hmiss)).
    cbn [negb].
    rewrite (bind_ok _ _ _ _ _ (print_said _ _)). reflexivity. }
  eexists. split; [exact Hstep | ].
  repeat split; try reflexivity.
  simpl run_jobs. now rewrite (bind_ok _ _ _ _ _ Hstep).
Qed.

End Orchestrator.

Lemma missing_source_is_skipped_witness :
  exists w1,
    process_video (A := Binary64) env_failing 1 (hd_video VIDEOS) [] world_empty
      = (Ok [], w1) /\
    fs w1 = ∅ /\
    calls w1 = [] /\
    run_jobs env_failing VIDEOS 1 [] world_empty
      = run_jobs env_failing (tl VIDEOS) 2 [] w1.
Proof.
  exact (missing_source_is_skipped (A := Binary64) env_failing 1 (hd_video VIDEOS)
           (tl VIDEOS) [] world_empty eq_refl).
Defined.

(** C3 as stated fails: with no source file on disk the run completes and
    the persisted summary is the empty object, so the first job has no
    entry at all, and none with [frames_extracted = 0]. *)
Lemma missing_source_has_no_entry :
  In (hd_video VIDEOS) VIDEOS /\
  fs (world_empty (A := Binary64)) !! job_video_path (hd_video VIDEOS) = None /\
  fst (main env_failing (world_empty (A := Binary64))) = Ok tt /\
  fs (snd (main env_failing (world_empty (A := Binary64)))) !! summary_file
    = Some (FJson (JObj [])) /\
  summary_entry (snd (main env_failing (world_empty (A := Binary64))))
    (job_name (hd_video VIDEOS)) = None.
Proof.
  split; [left; reflexivity | ].
  repeat split.
Qed.

(** ** C4: a failing transcoder *)

Section TranscoderFailure.
Context {A : Arith}.
Variable env : Env.

Lemma subprocess_run_spec (cmd : list string) (w : World) :
  subprocess_run env cmd w = (Ok (run_ffmpeg env cmd (fs w)), after_ffmpeg env cmd w).
Proof.
  unfold subprocess_run, after_ffmpeg. run_step.
  destruct (written (run_ffmpeg env cmd (fs w))); reflexivity.
Qed.

Lemma extract_audio_failure (video_path output_path exe : string) (w : World) :
  get_ffmpeg_exe env = Some exe ->
  fs w !! audio_target video_path output_path = None ->
  returncode (run_ffmpeg env
                (ffmpeg_command exe video_path (audio_target video_path output_path))
                (fs w)) <> 0 ->
  extract_audio env video_path output_path w
  = (Ok None,
     said (after_ffmpeg env
             (ffmpeg_command exe video_path (audio_target video_path output_path))
             (said w ["  Extracting audio to: "
                      +:+ path_name (audio_target video_path output_path)]))
          ["  ERROR extracting audio: "
           +:+ stderr (run_ffmpeg env
                         (ffmpeg_command exe video_path
                            (audio_target video_path output_path)) (fs w))]).
Proof.
  intros Hexe Habs Hrc. unfold extract_audio.
  fold (audio_target video_path output_path).
  rewrite (bind_ok _ _ _ _ _ (locate_ffmpeg_found env exe w Hexe)).
  rewrite (bind_ok _ _ _ _ _ (path_exists_absent _ w Habs)).
  rewrite (bind_ok _ _ _ _ _ (print_said _ w)).
  rewrite (bind_ok _ _ _ _ _ (subprocess_run_spec _ _)).
  cbn [fs said].
  apply Z.eqb_neq in Hrc. rewrite Hrc. cbn [negb].
  rewrite (bind_ok _ _ _ _ _ (print_said _ _)).
  reflexivity.
Qed.

End TranscoderFailure.

Section Results.
Context {A : Arith}.
Variable env : Env.

Lemma assoc_get_set_eq {V : Type} (k : string) (v : V) (l : list (string * V)) :
  assoc_get k (assoc_set k v l) = Some v.
Proof.
  induction l as [|[k' v'] l IH]; simpl.
  - now rewrite String.eqb_refl.
  - destruct (String.eqb k k') eqn:E; simpl.
    + now rewrite String.eqb_refl.
    + now rewrite E.
Qed.

Lemma assoc_get_set_ne {V : Type} (k k0 : string) (v : V) (l : list (string * V)) :
  k0 <> k -> assoc_get k0 (assoc_set k v l) = assoc_get k0 l.
Proof.
  intros Hne. induction l as [|[k' v'] l IH]; simpl.
  - destruct (String.eqb k0 k) eqn:E; [ | reflexivity].
    apply String.eqb_eq in E. contradiction.
  - destruct (String.eqb k k') eqn:E; simpl.
    + apply String.eqb_eq in E. subst k'.
      destruct (String.eqb k0 k) eqn:E0; [ | reflexivity].
      apply String.eqb_eq in E0. contradiction.
    + destruct (String.eqb k0 k'); [reflexivity | exact IH].
Qed.

Lemma results_json_get (name : string) (results : list (string * VideoSummary)) :
  json_get name (results_json results)
  = option_map summary_json (assoc_get name results).
Proof.
  unfold results_json. simpl.
  induction results as [|[k v] l IH]; simpl; [reflexivity | ].
  destruct (String.eqb name k); [reflexivity | exact IH].
Qed.

(** A job changes the results at its own name only. *)
Lemma process_video_results (i : Z) (j : VideoJob)
    (results results' : list (string * VideoSummary)) (w w' : World) :
  process_video env i j results w = (Ok results', w') ->
  results' = results \/ exists s, results' = assoc_set (job_name j) s results.
Proof.
  intros H. rewrite process_video_banner in H.
  bind_cases H. destruct r; cbn [negb] in H.
  - bind_cases H. bind_cases H. bind_cases H.
    destruct r0 as [p|]; [destruct r1 | ].
    + bind_cases H. inversion H. right. eauto.
    + inversion H. right. eauto.
    + inversion H. right. eauto.
  - bind_cases H. inversion H. now left.
Qed.

Lemma run_jobs_other_names (name : string) (jobs : list VideoJob) :
  Forall (fun j' => job_name j' <> name) jobs ->
  forall (i : Z) (results results' : list (string * VideoSummary)) (w w' : World),
    run_jobs env jobs i results w = (Ok results', w') ->
    assoc_get name results' = assoc_get name results.
Proof.
  induction 1 as [|j jobs Hj _ IH]; intros i results results' w w' H.
  - inversion H. reflexivity.
  - simpl in H. bind_cases H.
    rewrite (IH _ _ _ _ _ H).
    destruct (process_video_results _ _ _ _ _ _ E) as [-> | [s ->]]; [reflexivity | ].
    apply assoc_get_set_ne. congruence.
Qed.

Lemma report_runs (results : list (string * VideoSummary)) (w : World) :
  exists lines, report results w = (Ok tt, said w lines).
Proof.
  revert w. induction results as [|[name data] l IH]; intros w.
  - exists []. unfold said. simpl. rewrite app_nil_r. now destruct w.
  - simpl.
    rewrite (bind_ok _ _ _ _ _ (print_said _ _)).
    rewrite (bind_ok _ _ _ _ _ (print_said _ _)).
    rewrite (bind_ok _ _ _ _ _ (print_said _ _)).
    destruct (IH (said (said (said w [nl +:+ title data +:+ ":"])
                          ["  - Frames: " +:+ str_of_Z (frames_extracted data)])
                    ["  - Transcript segments: "
                     +:+ str_of_Z (segments_count data)])) as [lines Hl].
    rewrite Hl. rewrite !said_said. eauto.
Qed.

(** The end of [main] always completes and persists the results. *)
Lemma save_summary_spec (results : list (string * VideoSummary)) (w : World) :
  exists w',
    save_summary results w = (Ok tt, w') /\
    fs w' = <[summary_file := FJson (results_json results)]> (fs w) /\
    calls w' = calls w.
Proof.
  unfold save_summary.
  set (w1 := {| fs := <[summary_file := FJson (results_json results)]> (fs w);
                console := console w; calls := calls w |}).
  assert (Hw : write_file summary_file (FJson (results_json results)) w = (Ok tt, w1))
    by reflexivity.
  rewrite (bind_ok _ _ _ _ _ Hw).
  rewrite (bind_ok _ _ _ _ _ (print_said _ _)).
  rewrite (bind_ok _ _ _ _ _ (print_said _ _)).
  rewrite (bind_ok _ _ _ _ _ (print_said _ _)).
  destruct (report_runs results
              (said (said (said w1 [nl +:+ banner]) ["ANALYSIS COMPLETE"]) [banner]))
    as [lines Hl].
  rewrite Hl. eexists. split; [reflexivity | ]. split; reflexivity.
Qed.

End Results.

Section TranscoderFailureRun.
Context {A : Arith}.
Variable env : Env.

(** C4: when the transcoder is run for a job and exits non-zero,
    [extract_audio] returns no result; the job's iteration ends normally
    with the "Audio extraction failed" entry, having called the transcoder
    and nothing else (no model is loaded, nothing is transcribed); the loop
    goes on with the remaining jobs; and when these complete, the summary
    that [main] persists holds that entry, with [segments_count] 0. *)
Theorem transcoder_failure_recorded (i : Z) (j : VideoJob) (rest : list VideoJob)
    (results : list (string * VideoSummary)) (exe : string)
    (frames : list ExtractedFrame) (w w1 : World) :
  is_Some (fs w !! job_video_path j) ->
  extract_frames (job_video_path j) (path_join FRAMES_DIR (job_name j)) one_half
                 (said w (job_banner i j)) = (Ok frames, w1) ->
  get_ffmpeg_exe env = Some exe ->
  fs w1 !! audio_target (job_video_path j) TRANSCRIPTS_DIR = None ->
  returncode (run_ffmpeg env
                (ffmpeg_command exe (job_video_path j)
                   (audio_target (job_video_path j) TRANSCRIPTS_DIR))
                (fs w1)) <> 0 ->
  exists w2,
    extract_audio env (job_video_path j) TRANSCRIPTS_DIR w1 = (Ok None, w2) /\
    calls w2 = (calls w1 ++
                [CallFfmpeg (ffmpeg_command exe (job_video_path j)
                               (audio_target (job_video_path j) TRANSCRIPTS_DIR))])%list /\
    process_video env i j results w
      = (Ok (assoc_set (job_name j)
               (failed_summary j (Z.of_nat (length frames))) results), w2) /\
    run_jobs env (j :: rest) i results w
      = run_jobs env rest (i + 1)
          (assoc_set (job_name j)
             (failed_summary j (Z.of_nat (length frames))) results) w2 /\
    forall (results' : list (string * VideoSummary)) (w3 : World),
      run_jobs env rest (i + 1)
        (assoc_set (job_name j)
           (failed_summary j (Z.of_nat (length frames))) results) w2
        = (Ok results', w3) ->
      Forall (fun j' => job_name j' <> job_name j) rest ->
      exists w4 entry,
        save_summary results' w3 = (Ok tt, w4) /\
        summary_entry w4 (job_name j) = Some entry /\
        json_get "error" entry = Some (JStr "Audio extraction failed") /\
        json_get "segments_count" entry = Some (JInt 0).
Proof.
  intros [c Hsrc] Hframes Hexe Habs Hrc.
  pose proof (extract_audio_failure env _ _ exe w1 Hexe Habs Hrc) as Haudio.
  eexists. split; [exact Haudio | ].
  split; [reflexivity | ].
  assert (Hstep : process_video env i j results w
                  = (Ok (assoc_set (job_name j)
                           (failed_summary j (Z.of_nat (length frames))) results),
                     said (after_ffmpeg env
                             (ffmpeg_command exe (job_video_path j)
                                (audio_target (job_video_path j) TRANSCRIPTS_DIR))
                             (said w1 ["  Extracting audio to: "
                                +:+ path_name (audio_target (job_video_path j)
                                                 TRANSCRIPTS_DIR)]))
                       ["  ERROR extracting audio: "
                        +:+ stderr (run_ffmpeg env
                              (ffmpeg_command exe (job_video_path j)
                                 (audio_target (job_video_path j) TRANSCRIPTS_DIR))
                              (fs w1))])).
  { rewrite process_video_banner.
    rewrite (bind_ok _ _ _ _ true (path_exists_present _ c (said w _) Hsrc)).
    cbn [negb].
    rewrite (bind_ok _ _ _ _ _ Hframes).
    rewrite (bind_ok _ _ _ _ _ Haudio).
    reflexivity. }
  split; [exact Hstep | ].
  split; [simpl run_jobs; now rewrite (bind_ok _ _ _ _ _ Hstep) | ].
  intros results' w3 Hrest Hnames.
  destruct (save_summary_spec results' w3) as (w4 & Hsave & Hfs & _).
  exists w4, (summary_json (failed_summary j (Z.of_nat (length frames)))).
  split; [exact Hsave | ].
  split; [ | split; reflexivity].
  unfold summary_entry. rewrite Hfs, lookup_insert_eq.
  rewrite results_json_get.
  rewrite (run_jobs_other_names env (job_name j) rest Hnames _ _ _ _ _ Hrest).
  now rewrite assoc_get_set_eq.
Qed.

End TranscoderFailureRun.

Lemma transcoder_failure_recorded_witness :
  exists w2,
    process_video (A := Binary64) env_failing 1 (hd_video VIDEOS) []
      (world_with (job_video_path (hd_video VIDEOS)) (FVideo (clip (of_int 30) 3 640 360)))
    = (Ok [("video1_zvl_rev_rate", failed_summary (hd_video VIDEOS) 1)], w2).
Proof.
  edestruct (transcoder_failure_recorded (A := Binary64) env_failing 1
              (hd_video VIDEOS) (tl VIDEOS) [] "ffmpeg"
              [{| filename := "frame_0000_t0.0s.jpg"; timestamp := of_int 0;
                  frame_number := 0 |}]
              (world_with (job_video_path (hd_video VIDEOS))
                 (FVideo (clip (of_int 30) 3 640 360))))
    as (w2 & _ & _ & H & _).
  - eexists. reflexivity.
  - etransitivity; [apply surjective_pairing | apply f_equal2; reflexivity].
  - reflexivity.
  - reflexivity.
  - discriminate.
  - exists w2. exact H.
Defined.

(** ** C9: normalised samples *)

Lemma zrange_In (n : nat) (lo s : Z) :
  lo <= s < lo + Z.of_nat n -> In s (zrange n lo).
Proof.
  revert lo. induction n as [|n IH]; intros lo H.
  - lia.
  - simpl. destruct (Z.eq_dec lo s) as [->|Hne]; [now left | right].
    apply IH. lia.
Qed.





(** Induction on a buffer two bytes at a time. *)
Lemma byte_pairs_ind (P : list byte -> Prop) :
  P [] -> (forall b, P [b]) -> (forall lo hi rest, P rest -> P (lo :: hi :: rest)) ->
  forall bs, P bs.
Proof.
  intros H0 H1 H2.
  assert (H : forall bs, P bs /\ forall b, P (b :: bs)).
  { induction bs as [|b bs [IH1 IH2]]; split; auto. }
  intros bs. apply H.
Qed.





(** ** The sampling loop *)

Section Sampler.
Context {A : Arith}.

Lemma py_truediv_ok (x y : num) :
  is_zero y = false -> py_truediv x y = Ok (fdiv x y).
Proof. intros H. unfold py_truediv. now rewrite H. Qed.

Lemma kept_numbers_cons (stride start : Z) (n : nat) :
  kept_numbers stride start (S n)
  = if start mod stride =? 0
    then start :: kept_numbers stride (start + 1) n
    else kept_numbers stride (start + 1) n.
Proof. reflexivity. Qed.

Lemma entries_app (fps : num) (saved : Z) (ks1 ks2 : list Z) :
  entries fps saved (ks1 ++ ks2)
  = (entries fps saved ks1 ++ entries fps (saved + Z.of_nat (length ks1)) ks2)%list.
Proof.
  revert saved. induction ks1 as [|k ks1 IH]; intros saved.
  - simpl. now rewrite Z.add_0_r.
  - simpl. rewrite IH. do 3 f_equal. lia.
Qed.

Lemma entries_frame_numbers (fps : num) (saved : Z) (ks : list Z) :
  map frame_number (entries fps saved ks) = ks.
Proof.
  revert saved. induction ks as [|k ks IH]; intros saved; simpl; [reflexivity | ].
  now rewrite IH.
Qed.


Lemma entries_length (fps : num) (saved : Z) (ks : list Z) :
  length (entries fps saved ks) = length ks.
Proof.
  revert saved. induction ks as [|k ks IH]; intros saved; simpl; [reflexivity | ].
  now rewrite IH.
Qed.

(** The loop, for a non-zero stride and frame rate and frames the
    downscaling accepts: it keeps the frames whose number is a multiple of
    the stride, numbers them in sequence, and calls nothing external. *)
Lemma frame_loop_spec (fps : num) (stride : Z) (output_dir : string) :
  stride <> 0 ->
  is_zero fps = false ->
  forall (frames : list Frame) (frame_count saved_count : Z)
         (extracted : list ExtractedFrame) (w : World),
    Forall (fun f => exists f', downscale f = Ok f') frames ->
    exists w',
      frame_loop fps stride output_dir frames frame_count saved_count extracted w
      = (Ok (saved_count
             + Z.of_nat (length (kept_numbers stride frame_count (length frames))),
             (extracted
              ++ entries fps saved_count
                   (kept_numbers stride frame_count (length frames)))%list),
         w') /\
      calls w' = calls w.
Proof.
  intros Hstride Hfps.
  induction frames as [|frame rest IH];
    intros frame_count saved_count extracted w Hscale.
  - exists w. simpl. rewrite Z.add_0_r, app_nil_r. split; reflexivity.
  - inversion Hscale as [|? ? [frame' Hframe] Hrest]; subst.
    cbn [frame_loop length]. rewrite kept_numbers_cons.
    assert (Hmod : lift (py_mod frame_count stride) w
                   = (Ok (frame_count mod stride), w)).
    { unfold lift, py_mod. apply Z.eqb_neq in Hstride. now rewrite Hstride. }
    rewrite (bind_ok _ _ _ _ _ Hmod).
    destruct (frame_count mod stride =? 0) eqn:Hkeep.
    + assert (Hts : lift (py_truediv (of_int frame_count) fps) w
                    = (Ok (fdiv (of_int frame_count) fps), w)).
      { unfold lift. now rewrite py_truediv_ok. }
      rewrite (bind_ok _ _ _ _ _ Hts).
      assert (Hds : lift (downscale frame) w = (Ok frame', w)).
      { unfold lift. now rewrite Hframe. }
      rewrite (bind_ok _ _ _ _ _ Hds).
      set (w1 := {| fs := <[path_join output_dir
                              (frame_filename saved_count
                                 (fdiv (of_int frame_count) fps))
                            := FJpeg 85 frame']> (fs w);
                    console := console w; calls := calls w |}).
      assert (Hwr : imwrite (path_join output_dir
                               (frame_filename saved_count
                                  (fdiv (of_int frame_count) fps))) frame' 85 w
                    = (Ok tt, w1)) by reflexivity.
      rewrite (bind_ok _ _ _ _ _ Hwr).
      assert (Hpr : exists w2,
                 (if (saved_count + 1) mod 50 =? 0
                  then print ("  Extracted " +:+ str_of_Z (saved_count + 1)
                              +:+ " frames...")
                  else mret tt) w1 = (Ok tt, w2) /\ calls w2 = calls w).
      { destruct ((saved_count + 1) mod 50 =? 0); eexists; split; reflexivity. }
      destruct Hpr as (w2 & Hpr & Hcalls).
      rewrite (bind_ok _ _ _ _ _ Hpr).
      destruct (IH (frame_count + 1) (saved_count + 1)
                  (extracted ++ [{| filename := frame_filename saved_count
                                                  (fdiv (of_int frame_count) fps);
                                    timestamp := fdiv (of_int frame_count) fps;
                                    frame_number := frame_count |}])%list
                  w2 Hrest) as (w' & Hloop & Hcalls').
      exists w'. split; [ | congruence].
      rewrite Hloop. cbn [length entries]. rewrite <- app_assoc. cbn [app].
      do 3 f_equal. lia.
    + destruct (IH (frame_count + 1) saved_count extracted w Hrest)
        as (w' & Hloop & Hcalls').
      exists w'. split; [exact Hloop | exact Hcalls'].
Qed.

Lemma VideoCapture_open (video_path : string) (v : Video) (w : World) :
  fs w !! video_path = Some (FVideo v) ->
  VideoCapture video_path w = (Ok (Some v), w).
Proof. intros H. unfold VideoCapture. run_step. now rewrite H. Qed.

Lemma lift_ok {X : Type} (r : Res X) (x : X) (w : World) :
  r = Ok x -> lift r w = (Ok x, w).
Proof. intros ->. reflexivity. Qed.

Lemma lift_raise {X : Type} (r : Res X) (e : exn) (w : World) :
  r = Raise e -> lift (X := X) r w = (Raise e, w).
Proof. intros ->. reflexivity. Qed.

(** [extract_frames] on a source that opens, with a usable frame count, a
    non-zero frame rate and a non-zero stride: the manifest it returns and
    writes lists the frames whose number is a multiple of the stride. *)
Lemma extract_frames_spec (video_path output_dir : string) (fps_sample : num)
    (v : Video) (n s : Z) (w : World) :
  fs w !! video_path = Some (FVideo v) ->
  py_int (prop_frame_count v) = Ok n ->
  is_zero (prop_fps v) = false ->
  frame_interval_of (prop_fps v) fps_sample = Ok s ->
  s <> 0 ->
  Forall (fun f => exists f', downscale f = Ok f') (decoded v) ->
  exists w',
    extract_frames video_path output_dir fps_sample w
    = (Ok (entries (prop_fps v) 0 (kept_numbers s 0 (length (decoded v)))), w') /\
    calls w' = calls w /\
    fs w' !! path_join output_dir "frame_index.json"
    = Some (FJson (JArr (map frame_json
                           (entries (prop_fps v) 0
                              (kept_numbers s 0 (length (decoded v))))))).
Proof.
  intros Hfile Hcount Hfps Hstride Hs Hscale. unfold extract_frames.
  rewrite (bind_ok _ _ _ _ _ (print_said _ w)).
  rewrite (bind_ok _ _ _ _ _ (VideoCapture_open video_path v (said w _) Hfile)).
  rewrite (bind_ok _ _ _ _ _ (lift_ok _ _ _ Hcount)).
  rewrite (bind_ok _ _ _ _ _ (lift_ok _ _ _ (py_truediv_ok (of_int n) _ Hfps))).
  rewrite (bind_ok _ _ _ _ _ (print_said _ _)).
  rewrite (bind_ok _ _ _ _ _ (lift_ok _ _ _ Hstride)).
  match goal with
  | |- context [ (mkdir output_dir ≫= _) ?w0 ] =>
      set (wm := {| fs := fold_left mkdir_one (ancestors output_dir ++ [output_dir])%list
                            (fs w0);
                    console := console w0; calls := calls w0 |});
      assert (Hmk : mkdir output_dir w0 = (Ok tt, wm)) by reflexivity;
      rewrite (bind_ok _ _ _ _ _ Hmk)
  end.
  destruct (frame_loop_spec (prop_fps v) s output_dir Hs Hfps (decoded v) 0 0 [] wm
              Hscale) as (wl & Hloop & Hcalls).
  rewrite (bind_ok _ _ _ _ _ Hloop).
  rewrite (bind_ok _ _ _ _ _ (print_said _ _)).
  cbn [app].
  eexists. split; [reflexivity | ]. split.
  - cbn [calls said]. rewrite Hcalls. reflexivity.
  - cbn [fs]. apply lookup_insert_eq.
Qed.

End Sampler.

(** ** C2: the stride *)

Section Stride.
Context {A : Arith}.

Lemma frame_interval_of_trunc (fps fps_sample : num) (s : Z) :
  frame_interval_of fps fps_sample = Ok s ->
  is_zero fps_sample = false /\
  exists q, val (fdiv fps fps_sample) = XFin q /\ s = Qtrunc q.
Proof.
  unfold frame_interval_of, py_truediv, py_int. intros H.
  destruct (is_zero fps_sample); [discriminate H | ].
  split; [reflexivity | ].
  destruct (val (fdiv fps fps_sample)) as [q| |]; try discriminate H.
  inversion H. eauto.
Qed.

(** C2, as the code has it: the stride is [int(source_fps / sampling_rate)],
    the quotient truncated toward zero; when it is not zero the sampler
    keeps exactly the decoded frames whose number is a multiple of it,
    whatever the arithmetic; and under IEEE double precision a 30 fps
    source sampled at 0.5 frames per second has stride 60. *)
Theorem stride_is_truncated_quotient (video_path output_dir : string)
    (fps_sample : num) (v : Video) (n s : Z) (w : World) :
  fs w !! video_path = Some (FVideo v) ->
  py_int (prop_frame_count v) = Ok n ->
  is_zero (prop_fps v) = false ->
  frame_interval_of (prop_fps v) fps_sample = Ok s ->
  s <> 0 ->
  Forall (fun f => exists f', downscale f = Ok f') (decoded v) ->
  (exists q, val (fdiv (prop_fps v) fps_sample) = XFin q /\ s = Qtrunc q) /\
  (exists l w',
     extract_frames video_path output_dir fps_sample w = (Ok l, w') /\
     map frame_number l
     = List.filter (fun k => k mod s =? 0) (zrange (length (decoded v)) 0)) /\
  frame_interval_of (A := Binary64) (of_int 30) one_half = Ok 60.
Proof.
  intros Hfile Hcount Hfps Hstride Hs Hscale.
  split; [exact (proj2 (frame_interval_of_trunc _ _ _ Hstride)) | ].
  split; [ | reflexivity].
  destruct (extract_frames_spec video_path output_dir fps_sample v n s w
              Hfile Hcount Hfps Hstride Hs Hscale) as (w' & Hrun & _).
  eexists. exists w'. split; [exact Hrun | ].
  apply entries_frame_numbers.
Qed.

Lemma clip_frames_downscale (fps : num) (n : nat) (wd ht : Z) (f' : Frame) :
  downscale {| height := ht; width := wd; pixels := 0 |} = Ok f' ->
  Forall (fun f => exists f', downscale f = Ok f') (decoded (clip fps n wd ht)).
Proof.
  intros H. unfold clip. cbn [decoded].
  apply List.Forall_forall. intros f Hf.
  apply repeat_spec in Hf. subst f. eauto.
Qed.

End Stride.

Lemma stride_is_truncated_quotient_witness :
  exists l w',
    extract_frames (A := Binary64) "Videos/clip.mp4" "out" one_half
      (world_with "Videos/clip.mp4" (FVideo (clip (of_int 30) 300 1920 1080)))
    = (Ok l, w') /\
    map frame_number l
    = List.filter (fun k => k mod 60 =? 0) (zrange 300 0).
Proof.
  edestruct (stride_is_truncated_quotient (A := Binary64) "Videos/clip.mp4" "out"
               one_half (clip (of_int 30) 300 1920 1080) 300 60
               (world_with "Videos/clip.mp4" (FVideo (clip (of_int 30) 300 1920 1080))))
    as (_ & H & _).
  - reflexivity.
  - reflexivity.
  - reflexivity.
  - reflexivity.
  - discriminate.
  - eapply clip_frames_downscale. reflexivity.
  - exact H.
Defined.

(** The spec's scenario, under IEEE double precision: ten seconds at 30 fps
    sampled at 0.5 frames per second give five frames, every 60th, at 0, 2,
    4, 6 and 8 seconds. *)
Lemma scenario_ten_seconds :
  frame_numbers_of
    (fst (extract_frames (A := Binary64) "Videos/clip.mp4" "out" one_half
            (world_with "Videos/clip.mp4" (FVideo (clip (of_int 30) 300 1920 1080)))))
    = Ok [0; 60; 120; 180; 240] /\
  filenames_of
    (fst (extract_frames (A := Binary64) "Videos/clip.mp4" "out" one_half
            (world_with "Videos/clip.mp4" (FVideo (clip (of_int 30) 300 1920 1080)))))
    = Ok ["frame_0000_t0.0s.jpg"; "frame_0001_t2.0s.jpg"; "frame_0002_t4.0s.jpg";
          "frame_0003_t6.0s.jpg"; "frame_0004_t8.0s.jpg"].
Proof. split; vm_compute; reflexivity. Qed.

(** C2 as stated fails: for a 29.97 fps source sampled at 0.5 frames per
    second the quotient is 59.94; rounding to nearest gives 60, the code's
    stride is 59, and the frames kept are the multiples of 59. *)
Lemma stride_is_not_rounded :
  frame_interval_of (A := Binary64) (fdiv (of_int 2997) (of_int 100)) one_half
    = Ok 59 /\
  spec_stride (A := Binary64) (fdiv (of_int 2997) (of_int 100)) one_half = Some 60 /\
  frame_numbers_of
    (fst (extract_frames (A := Binary64) "Videos/clip.mp4" "out" one_half
            (world_with "Videos/clip.mp4"
               (FVideo (clip (fdiv (of_int 2997) (of_int 100)) 300 1920 1080)))))
    = Ok [0; 59; 118; 177; 236; 295].
Proof. repeat split; vm_compute; reflexivity. Qed.

(** ** C7: a source with zero frame rate *)

Section ZeroRate.
Context {A : Arith}.

(** C7 does not hold of the code: for a source that opens and reports a
    zero frame rate, [duration = total_frames / fps] raises
    [ZeroDivisionError] out of [extract_frames]; nothing is reported, no
    directory is made and no manifest is written. *)
Theorem zero_fps_raises (video_path output_dir : string) (fps_sample : num)
    (v : Video) (n : Z) (w : World) :
  fs w !! video_path = Some (FVideo v) ->
  py_int (prop_frame_count v) = Ok n ->
  is_zero (prop_fps v) = true ->
  exists w',
    extract_frames video_path output_dir fps_sample w
      = (Raise ZeroDivisionError, w') /\
    fs w' = fs w /\
    console w' = (console w
                  ++ [nl +:+ "Extracting frames from: " +:+ path_name video_path])%list.
Proof.
  intros Hfile Hcount Hzero. unfold extract_frames.
  rewrite (bind_ok _ _ _ _ _ (print_said _ w)).
  rewrite (bind_ok _ _ _ _ _ (VideoCapture_open video_path v (said w _) Hfile)).
  rewrite (bind_ok _ _ _ _ _ (lift_ok _ _ _ Hcount)).
  assert (Hdiv : py_truediv (of_int n) (prop_fps v) = Raise ZeroDivisionError).
  { unfold py_truediv. now rewrite Hzero. }
  rewrite (bind_raise _ _ _ _ _ (lift_raise _ _ _ Hdiv)).
  eexists. split; [reflexivity | ]. split; reflexivity.
Qed.

End ZeroRate.

Lemma zero_fps_raises_witness :
  exists w',
    extract_frames (A := Binary64) "Videos/clip.mp4" "out" one_half
      (world_with "Videos/clip.mp4" (FVideo (clip (of_int 0) 0 1920 1080)))
    = (Raise ZeroDivisionError, w').
Proof.
  edestruct (zero_fps_raises (A := Binary64) "Videos/clip.mp4" "out" one_half
               (clip (of_int 0) 0 1920 1080) 0
               (world_with "Videos/clip.mp4" (FVideo (clip (of_int 0) 0 1920 1080))))
    as (w' & H & _).
  - reflexivity.
  - reflexivity.
  - reflexivity.
  - exists w'. exact H.
Defined.

(** With frames missing but a frame rate, the duration is computed: 0. *)
Lemma zero_frames_duration :
  fst (extract_frames (A := Binary64) "Videos/clip.mp4" "out" one_half
         (world_with "Videos/clip.mp4" (FVideo (clip (of_int 30) 0 1920 1080))))
    = Ok [] /\
  nth 1 (console
           (snd (extract_frames (A := Binary64) "Videos/clip.mp4" "out" one_half
                   (world_with "Videos/clip.mp4"
                      (FVideo (clip (of_int 30) 0 1920 1080)))))) EmptyString
    = "  Video FPS: 30.00, Duration: 0.0s, Total frames: 0".
Proof. split; reflexivity. Qed.

(** ** C8: downscaling and the saved files *)

(** C8 does not hold of the code under IEEE double precision: for a frame
    2139 pixels wide, [1280 / width] is rounded down, the product with the
    width falls just below 1280 and [int()] truncates it, so the frame is
    saved 1279 pixels wide (as JPEG of quality 85, under the expected
    name). *)
Theorem downscale_2139_is_1279 :
  downscale (A := Binary64) {| height := 1200; width := 2139; pixels := 0 |}
    = Ok {| height := 718; width := 1279; pixels := 0 |} /\
  filenames_of
    (fst (extract_frames (A := Binary64) "Videos/clip.mp4" "out" one_half
            (world_with "Videos/clip.mp4" (FVideo (clip (of_int 30) 1 2139 1200)))))
    = Ok ["frame_0000_t0.0s.jpg"] /\
  fs (snd (extract_frames (A := Binary64) "Videos/clip.mp4" "out" one_half
             (world_with "Videos/clip.mp4" (FVideo (clip (of_int 30) 1 2139 1200)))))
    !! "out/frame_0000_t0.0s.jpg"
    = Some (FJpeg 85 {| height := 718; width := 1279; pixels := 0 |}).
Proof. repeat split; reflexivity. Qed.


(** ** C1: how many frames are saved, and their timestamps *)

Lemma zrange_snoc (n : nat) (lo : Z) :
  zrange (S n) lo = (zrange n lo ++ [lo + Z.of_nat n])%list.
Proof.
  revert lo. induction n as [|n IH]; intros lo.
  - simpl. now rewrite Z.add_0_r.
  - change (zrange (S (S n)) lo) with (lo :: zrange (S n) (lo + 1)).
    rewrite IH. simpl. do 3 f_equal. lia.
Qed.

Lemma ceil_div_succ (n s : Z) :
  0 <= n -> 1 <= s ->
  (n + 1 + s - 1) / s = (n + s - 1) / s + (if n mod s =? 0 then 1 else 0).
Proof.
  intros Hn Hs.
  pose proof (Z.div_mod n s ltac:(lia)) as Hdm.
  pose proof (Z.mod_pos_bound n s ltac:(lia)) as Hb.
  destruct (Z.eqb_spec (n mod s) 0) as [E|E].
  - rewrite <- (Z.div_unique (n + 1 + s - 1) s (n / s + 1) 0) by lia.
    rewrite <- (Z.div_unique (n + s - 1) s (n / s) (s - 1)) by lia. lia.
  - rewrite <- (Z.div_unique (n + 1 + s - 1) s (n / s + 1) (n mod s)) by lia.
    rewrite <- (Z.div_unique (n + s - 1) s (n / s + 1) (n mod s - 1)) by lia. lia.
Qed.

(** Among the first [n] frame numbers, the multiples of the stride are
    [ceil(n / stride)] many. *)
Lemma kept_numbers_count (s : Z) (n : nat) :
  1 <= s ->
  Z.of_nat (length (kept_numbers s 0 n)) = (Z.of_nat n + s - 1) / s.
Proof.
  intros Hs. induction n as [|n IH].
  - simpl. symmetry. apply Z.div_small. lia.
  - unfold kept_numbers in *. rewrite zrange_snoc, List.filter_app, length_app.
    rewrite Nat2Z.inj_add, IH, Nat2Z.inj_succ.
    replace (Z.succ (Z.of_nat n) + s - 1) with (Z.of_nat n + 1 + s - 1) by lia.
    rewrite ceil_div_succ by lia. cbn [List.filter]. rewrite Z.add_0_l.
    destruct (Z.of_nat n mod s =? 0); reflexivity.
Qed.

(** The count, for any arithmetic: a source that opens, with a usable
    frame count, a non-zero frame rate and a stride [s >= 1] yields
    [ceil(N / s)] saved frames. *)
Lemma saved_frames_count {A : Arith} (video_path output_dir : string)
    (fps_sample : num) (v : Video) (n s : Z) (w : World) :
  fs w !! video_path = Some (FVideo v) ->
  py_int (prop_frame_count v) = Ok n ->
  is_zero (prop_fps v) = false ->
  frame_interval_of (prop_fps v) fps_sample = Ok s ->
  1 <= s ->
  Forall (fun f => exists f', downscale f = Ok f') (decoded v) ->
  exists l w',
    extract_frames video_path output_dir fps_sample w = (Ok l, w') /\
    Z.of_nat (length l) = (Z.of_nat (length (decoded v)) + s - 1) / s.
Proof.
  intros Hfile Hcount Hfps Hstride Hs Hscale.
  destruct (extract_frames_spec video_path output_dir fps_sample v n s w
              Hfile Hcount Hfps Hstride ltac:(lia) Hscale) as (w' & Hrun & _).
  eexists. exists w'. split; [exact Hrun | ].
  rewrite entries_length. now apply kept_numbers_count.
Qed.


Section ExactSampler.








End ExactSampler.



(** ** C6: lines of the text transcript and segments of the JSON one *)

Lemma line_count_app (a b : string) :
  line_count (a +:+ b) = line_count a + line_count b.
Proof.
  induction a as [|c a IH]; simpl; [reflexivity | ].
  rewrite IH. lia.
Qed.

Lemma line_count_uint (d : Decimal.uint) :
  line_count (NilEmpty.string_of_uint d) = 0.
Proof. induction d; simpl; auto. Qed.

Lemma line_count_uint0 (d : Decimal.uint) :
  line_count (NilZero.string_of_uint d) = 0.
Proof. destruct d; try reflexivity; apply (line_count_uint (_ d)). Qed.

Lemma line_count_str_of_Z (z : Z) : line_count (str_of_Z z) = 0.
Proof.
  unfold str_of_Z, NilZero.string_of_int.
  destruct (Z.to_int z) as [d|d]; [apply line_count_uint0 | ].
  simpl. apply line_count_uint0.
Qed.

Lemma line_count_zeros (n : nat) : line_count (zeros n) = 0.
Proof. induction n; simpl; auto. Qed.

Lemma line_count_fmt_0d (w : nat) (n : Z) : line_count (fmt_0d w n) = 0.
Proof.
  unfold fmt_0d. rewrite !line_count_app, line_count_zeros, line_count_uint0.
  destruct (n <? 0); reflexivity.
Qed.

Lemma line_count_timedelta (n : Z) (s : string) :
  str_timedelta n = Ok s -> line_count s = 0.
Proof.
  unfold str_timedelta.
  destruct ((n / 86400 <? -999999999) || (999999999 <? n / 86400));
    [discriminate | ].
  intros [= <-]. cbv zeta.
  destruct (n / 86400 =? 0); [ | destruct (Z.abs (n / 86400) =? 1)];
    rewrite !line_count_app, ?line_count_str_of_Z, ?line_count_fmt_0d;
    reflexivity.
Qed.

Section Transcript.
Context {A : Arith}.
Variable env : Env.

(** A segment's line ends its one line, unless the text itself has line
    breaks inside. *)
Lemma segment_line_count (segment : Segment) (line : string) :
  segment_line segment = Ok line ->
  line_count line = 1 + line_count (strip (seg_text segment)).
Proof.
  unfold segment_line, mbind, Res_bind, mret, Res_ret.
  destruct (py_int (seg_start segment)) as [a|]; [ | discriminate].
  destruct (str_timedelta a) as [sa|] eqn:Ea; [ | discriminate].
  destruct (py_int (seg_end segment)) as [b|]; [ | discriminate].
  destruct (str_timedelta b) as [sb|] eqn:Eb; [ | discriminate].
  intros H. inversion H.
  rewrite !line_count_app.
  rewrite (line_count_timedelta _ _ Ea), (line_count_timedelta _ _ Eb).
  simpl. lia.
Qed.

Lemma append_text_spec (p t s : string) (w : World) :
  fs w !! p = Some (FText t) ->
  append_text p s w
  = (Ok tt, {| fs := <[p := FText (t +:+ s)]> (fs w);
               console := console w; calls := calls w |}).
Proof. intros H. unfold append_text. run_step. now rewrite H. Qed.

Lemma write_segments_spec (p : string) (segs : list Segment) :
  Forall (fun s => exists line, segment_line s = Ok line) segs ->
  Forall (fun s => line_count (strip (seg_text s)) = 0) segs ->
  forall (t : string) (w : World),
    fs w !! p = Some (FText t) ->
    exists t',
      write_segments p segs w
      = (Ok tt, {| fs := <[p := FText t']> (fs w);
                   console := console w; calls := calls w |}) /\
      line_count t' = line_count t + Z.of_nat (length segs).
Proof.
  induction segs as [|segment rest IH]; intros Hok Hnl t w Hfile.
  - exists t. split; [ | simpl; lia].
    simpl. unfold mret, M_ret. rewrite insert_id by exact Hfile. now destruct w.
  - inversion Hok as [|? ? [line Hline] Hok']; subst.
    inversion Hnl as [|? ? Hnl0 Hnl']; subst.
    cbn [write_segments].
    rewrite (bind_ok _ _ _ _ _ (lift_ok _ _ w Hline)).
    rewrite (bind_ok _ _ _ _ _ (append_text_spec p t line w Hfile)).
    destruct (IH Hok' Hnl' (t +:+ line)
                {| fs := <[p := FText (t +:+ line)]> (fs w);
                   console := console w; calls := calls w |})
      as (t' & Hrun & Hcount).
    { cbn [fs]. apply lookup_insert_eq. }
    exists t'. split.
    + rewrite Hrun. cbn [fs console calls]. now rewrite insert_insert_eq.
    + rewrite Hcount, line_count_app, (segment_line_count _ _ Hline), Hnl0.
      cbn [length]. lia.
Qed.

Lemma append_inj_l (p a b : string) : p +:+ a = p +:+ b -> a = b.
Proof.
  induction p as [|c p IH]; simpl; intros H; [exact H | ].
  inversion H. auto.
Qed.

Lemma transcript_paths_differ (audio_path output_dir : string) :
  transcript_json_path audio_path output_dir
  <> transcript_txt_path audio_path output_dir.
Proof.
  unfold transcript_json_path, transcript_txt_path, path_join. intros H.
  apply append_inj_l in H. apply (append_inj_l "/") in H.
  apply append_inj_l in H. discriminate H.
Qed.

Lemma load_audio_ok (file_path : string) (frames : list byte) (audio : list num)
    (w : World) :
  fs w !! file_path = Some (FWav frames) ->
  decode_samples frames = Ok audio ->
  load_audio_from_wav file_path w = (Ok audio, w).
Proof.
  intros Hfile Hdec. unfold load_audio_from_wav. run_step.
  now rewrite Hfile, Hdec.
Qed.

(** C6, as the code has it: when the model loads, the WAV decodes, the
    model returns a result whose segments have timestamps [timedelta] can
    print and texts without inner line breaks (the file name having none
    either), [transcribe_audio] returns
    that result, the JSON transcript has one entry per segment, and the
    text transcript has two lines more than that: the title line and the
    empty line written before the segments. *)
Theorem transcript_lines_are_segments_plus_header
    (audio_path output_dir model_name : string) (frames : list byte)
    (audio : list num) (result : Transcript) (w : World) :
  load_model env model_name = true ->
  fs w !! audio_path = Some (FWav frames) ->
  decode_samples frames = Ok audio ->
  model_transcribe env model_name audio = Some result ->
  Forall (fun s => exists line, segment_line s = Ok line) (segments result) ->
  Forall (fun s => line_count (strip (seg_text s)) = 0) (segments result) ->
  line_count (path_stem audio_path) = 0 ->
  exists w',
    transcribe_audio env audio_path output_dir model_name w = (Ok result, w') /\
    json_segment_count w' (transcript_json_path audio_path output_dir)
      = Some (Z.of_nat (length (segments result))) /\
    text_lines w' (transcript_txt_path audio_path output_dir)
      = Some (2 + Z.of_nat (length (segments result))).
Proof.
  intros Hload Hfile Hdec Hmodel Hok Hnl Hstem. unfold transcribe_audio.
  fold (transcript_txt_path audio_path output_dir).
  fold (transcript_json_path audio_path output_dir).
  rewrite Hload.
  do 5 bind_run.
  erewrite bind_ok by (apply (load_audio_ok audio_path frames audio);
                       [exact Hfile | exact Hdec]).
  do 2 bind_run. rewrite Hmodel.
  do 2 bind_run. cbn [fs console calls].
  erewrite bind_ok by (apply append_text_spec; cbn [fs]; apply lookup_insert_eq).
  cbn [fs console calls]. rewrite insert_insert_eq.
  match goal with
  | |- context [ (write_segments ?p ?segs ≫= _) ?w0 ] =>
      destruct (write_segments_spec p segs Hok Hnl
                  ("# Transcript: " +:+ path_stem audio_path +:+ nl +:+ nl) w0)
        as (t' & Hsegs & Hcount);
      [ cbn [fs]; apply lookup_insert_eq | ]
  end.
  rewrite (bind_ok _ _ _ _ _ Hsegs).
  do 4 bind_run.
  eexists. split; [reflexivity | ].
  unfold json_segment_count, text_lines. cbn [fs].
  rewrite insert_insert_eq.
  rewrite lookup_insert_eq.
  rewrite lookup_insert_ne by apply transcript_paths_differ.
  rewrite lookup_insert_eq.
  split.
  - unfold transcript_json. cbn [json_get assoc_get String.eqb Ascii.eqb Bool.eqb].
    now rewrite length_map.
  - rewrite Hcount, !line_count_app, Hstem. simpl. reflexivity.
Qed.

End Transcript.

Lemma transcript_lines_are_segments_plus_header_witness :
  exists w',
    transcribe_audio (A := Binary64) env_one_segment "t/a.wav" "t" "base"
      (world_with "t/a.wav" (FWav ["000"; "128"; "255"; "127"]%byte))
    = (Ok {| full_text := " Hello there.";
             segments := [{| seg_start := of_int 0;
                             seg_end := fdiv (of_int 5) (of_int 2);
                             seg_text := " Hello there." |}] |}, w') /\
    json_segment_count w' "t/a_transcript.json" = Some 1 /\
    text_lines w' "t/a_transcript.txt" = Some 3.
Proof.
  edestruct (transcript_lines_are_segments_plus_header (A := Binary64)
               env_one_segment "t/a.wav" "t" "base" ["000"; "128"; "255"; "127"]%byte
               (map normalize_sample [-32768; 32767])
               {| full_text := " Hello there.";
                  segments := [{| seg_start := of_int 0;
                                  seg_end := fdiv (of_int 5) (of_int 2);
                                  seg_text := " Hello there." |}] |}
               (world_with "t/a.wav" (FWav ["000"; "128"; "255"; "127"]%byte)))
    as (w' & H).
  - reflexivity.
  - reflexivity.
  - reflexivity.
  - reflexivity.
  - repeat constructor. eexists. reflexivity.
  - repeat constructor.
  - reflexivity.
  - exists w'. exact H.
Defined.

(** C6 as stated fails: for a result of one segment the JSON transcript
    has one segment and the text transcript three lines. *)
Lemma transcript_has_header_lines :
  fst (transcribe_audio (A := Binary64) env_one_segment "t/a.wav" "t" "base"
         (world_with "t/a.wav" (FWav ["000"; "128"; "255"; "127"]%byte)))
    = Ok {| full_text := " Hello there.";
            segments := [{| seg_start := of_int 0;
                            seg_end := fdiv (of_int 5) (of_int 2);
                            seg_text := " Hello there." |}] |} /\
  json_segment_count
    (snd (transcribe_audio (A := Binary64) env_one_segment "t/a.wav" "t" "base"
            (world_with "t/a.wav" (FWav ["000"; "128"; "255"; "127"]%byte))))
    "t/a_transcript.json" = Some 1 /\
  text_lines
    (snd (transcribe_audio (A := Binary64) env_one_segment "t/a.wav" "t" "base"
            (world_with "t/a.wav" (FWav ["000"; "128"; "255"; "127"]%byte))))
    "t/a_transcript.txt" = Some 3 /\
  fs (snd (transcribe_audio (A := Binary64) env_one_segment "t/a.wav" "t" "base"
             (world_with "t/a.wav" (FWav ["000"; "128"; "255"; "127"]%byte))))
    !! "t/a_transcript.txt"
    = Some (FText ("# Transcript: a" +:+ nl +:+ nl
                   +:+ "[0:00:00 - 0:00:02] Hello there." +:+ nl)).
Proof. repeat split; reflexivity. Qed.

(** * Further properties *)

(** ** A calculus of world relations *)

Section Respects.
Context {A : Arith}.
Variable R : World -> World -> Prop.
Hypothesis R_refl : forall w, R w w.
Hypothesis R_trans : forall w1 w2 w3, R w1 w2 -> R w2 w3 -> R w1 w3.

Lemma respects_ret {X : Type} (x : X) : respects R (mret x).
Proof. intros w. apply R_refl. Qed.

Lemma respects_raise {X : Type} (e : exn) : respects R (raise (X := X) e).
Proof. intros w. apply R_refl. Qed.

Lemma respects_lift {X : Type} (r : Res X) : respects R (lift r).
Proof. intros w. apply R_refl. Qed.

Lemma respects_get_fs : respects R get_fs.
Proof. intros w. apply R_refl. Qed.

Lemma respects_bind {X Y : Type} (m : M X) (f : X -> M Y) :
  respects R m -> (forall x, respects R (f x)) -> respects R (m ≫= f).
Proof.
  intros Hm Hf w. specialize (Hm w). unfold mbind, M_bind.
  destruct (m w) as [[x|e] w1]; simpl in *.
  - eapply R_trans; [exact Hm | apply Hf].
  - exact Hm.
Qed.

Lemma respects_path_exists (p : string) : respects R (path_exists p).
Proof.
  unfold path_exists. apply respects_bind; [apply respects_get_fs | ].
  intros f. apply respects_ret.
Qed.

Lemma respects_if {X : Type} (b : bool) (m1 m2 : M X) :
  respects R m1 -> respects R m2 -> respects R (if b then m1 else m2).
Proof. destruct b; auto. Qed.

End Respects.

(** ** The frame sampler and the world *)

Section SamplerRespects.
Context {A : Arith}.
Variable R : World -> World -> Prop.
Hypothesis R_refl : forall w, R w w.
Hypothesis R_trans : forall w1 w2 w3, R w1 w2 -> R w2 w3 -> R w1 w3.
Hypothesis R_print : forall s, respects R (print s).
Hypothesis R_mkdir : forall p, respects R (mkdir p).
Variable output_dir : string.
Hypothesis R_write : forall x c, respects R (write_file (path_join output_dir x) c).

Lemma frame_loop_respects (fps : num) (stride : Z) (frames : list Frame) :
  forall (frame_count saved_count : Z) (extracted : list ExtractedFrame),
    respects R (frame_loop fps stride output_dir frames frame_count saved_count
                  extracted).
Proof.
  induction frames as [|frame rest IH]; intros frame_count saved_count extracted.
  - apply (respects_ret R R_refl).
  - cbn [frame_loop].
    apply (respects_bind R R_trans); [apply (respects_lift R R_refl) | ]. intros r.
    destruct (r =? 0); [ | apply IH].
    apply (respects_bind R R_trans); [apply (respects_lift R R_refl) | ]. intros ts.
    apply (respects_bind R R_trans); [apply (respects_lift R R_refl) | ]. intros frame'.
    apply (respects_bind R R_trans); [apply R_write | ]. intros _.
    apply (respects_bind R R_trans); [ | intros _; apply IH].
    apply respects_if; [apply R_print | apply (respects_ret R R_refl)].
Qed.

Lemma VideoCapture_respects (video_path : string) :
  respects R (VideoCapture video_path).
Proof.
  unfold VideoCapture. apply (respects_bind R R_trans); [apply (respects_get_fs R R_refl) | ].
  intros f. destruct (f !! video_path) as [[]|]; apply (respects_ret R R_refl).
Qed.

Lemma extract_frames_respects (video_path : string) (fps_sample : num) :
  respects R (extract_frames video_path output_dir fps_sample).
Proof.
  unfold extract_frames.
  apply (respects_bind R R_trans); [apply R_print | intros _].
  apply (respects_bind R R_trans); [apply VideoCapture_respects | intros cap].
  destruct cap as [v|].
  - apply (respects_bind R R_trans); [apply (respects_lift R R_refl) | ]. intros total_frames.
    apply (respects_bind R R_trans); [apply (respects_lift R R_refl) | ]. intros duration.
    apply (respects_bind R R_trans); [apply R_print | intros _].
    apply (respects_bind R R_trans); [apply (respects_lift R R_refl) | ]. intros frame_interval.
    apply (respects_bind R R_trans); [apply R_mkdir | intros _].
    apply (respects_bind R R_trans); [apply frame_loop_respects | intros [saved extracted]].
    apply (respects_bind R R_trans); [apply R_print | intros _].
    apply (respects_bind R R_trans); [apply R_write | intros _].
    apply (respects_ret R R_refl).
  - apply (respects_bind R R_trans); [apply R_print | intros _]. apply (respects_ret R R_refl).
Qed.

End SamplerRespects.

Section WorldRelations.
Context {A : Arith}.

Lemma same_calls_refl (w : World) : same_calls w w.
Proof. reflexivity. Qed.

Lemma same_calls_trans (w1 w2 w3 : World) :
  same_calls w1 w2 -> same_calls w2 w3 -> same_calls w1 w3.
Proof. unfold same_calls. congruence. Qed.

Lemma keeps_files_refl (Q : string -> Prop) (w : World) : keeps_files Q w w.
Proof. intros p c _ H. exact H. Qed.

Lemma keeps_files_trans (Q : string -> Prop) (w1 w2 w3 : World) :
  keeps_files Q w1 w2 -> keeps_files Q w2 w3 -> keeps_files Q w1 w3.
Proof. intros H1 H2 p c Hq H. apply H2, H1; assumption. Qed.

Lemma same_outside_refl (T : string -> Prop) (w : World) : same_outside T w w.
Proof. intros p _. reflexivity. Qed.

Lemma same_outside_trans (T : string -> Prop) (w1 w2 w3 : World) :
  same_outside T w1 w2 -> same_outside T w2 w3 -> same_outside T w1 w3.
Proof. intros H1 H2 p Hp. rewrite (H2 p Hp). now apply H1. Qed.

(** [mkdir] replaces nothing that exists. *)
Lemma mkdir_fold_keeps (l : list string) (f : gmap string File) (p : string)
    (c : File) :
  f !! p = Some c -> fold_left mkdir_one l f !! p = Some c.
Proof.
  revert f. induction l as [|q l IH]; intros f H; [exact H | ].
  simpl. apply IH. unfold mkdir_one.
  destruct (f !! q) eqn:E; [exact H | ].
  rewrite lookup_insert_ne; [exact H | ]. intros ->. congruence.
Qed.

Lemma keeps_files_mkdir (Q : string -> Prop) (p : string) :
  respects (keeps_files Q) (mkdir p).
Proof. intros w q c _ H. simpl. now apply mkdir_fold_keeps. Qed.

Lemma keeps_files_print (Q : string -> Prop) (s : string) :
  respects (keeps_files Q) (print s).
Proof. intros w q c _ H. exact H. Qed.

Lemma keeps_files_write (Q : string -> Prop) (key : string) (c : File) :
  ~ Q key -> respects (keeps_files Q) (write_file key c).
Proof.
  intros Hkey w q c' Hq H. simpl.
  rewrite lookup_insert_ne; [exact H | ]. intros ->. contradiction.
Qed.

End WorldRelations.

(** [extract_frames] calls no external program, whatever the source and
    whatever the outcome. *)
Theorem extract_frames_calls_nothing {A : Arith} (video_path output_dir : string)
    (fps_sample : num) (w : World) :
  calls (snd (extract_frames video_path output_dir fps_sample w)) = calls w.
Proof.
  apply (extract_frames_respects same_calls same_calls_refl same_calls_trans);
    intros; intros w0; reflexivity.
Qed.

(** [extract_frames] leaves every existing file that is not below the
    output directory as it was (the source video in particular), whether
    it returns or raises: its directories are made only where nothing
    exists, and its files are written below the output directory. *)
Theorem extract_frames_keeps_other_files {A : Arith}
    (video_path output_dir : string) (fps_sample : num) (w : World)
    (p : string) (c : File) :
  ~ under output_dir p ->
  fs w !! p = Some c ->
  fs (snd (extract_frames video_path output_dir fps_sample w)) !! p = Some c.
Proof.
  intros Hp H.
  apply (extract_frames_respects (keeps_files (fun q => ~ under output_dir q))
           (keeps_files_refl _) (keeps_files_trans _)
           (keeps_files_print _) (keeps_files_mkdir _) output_dir); auto.
  intros x c'. apply keeps_files_write. intros Hn. apply Hn. now exists x.
Qed.

Lemma extract_frames_keeps_other_files_witness :
  fs (snd (extract_frames (A := Binary64) "Videos/clip.mp4" "out" one_half
             (world_with "Videos/clip.mp4" (FVideo (clip (of_int 30) 61 640 360)))))
    !! "Videos/clip.mp4"
  = Some (FVideo (clip (of_int 30) 61 640 360)).
Proof.
  apply (extract_frames_keeps_other_files (A := Binary64)).
  - intros [x Hx]. discriminate Hx.
  - reflexivity.
Defined.

(** ** The other components and the world *)

Section ComponentsRespect.
Context {A : Arith}.
Variable env : Env.
Variable R : World -> World -> Prop.
Variable T : string -> Prop.
Hypothesis R_refl : forall w, R w w.
Hypothesis R_trans : forall w1 w2 w3, R w1 w2 -> R w2 w3 -> R w1 w3.
Hypothesis R_print : forall s, respects R (print s).
Hypothesis R_log : forall c, respects R (log_call c).
Hypothesis R_write : forall key c, T key -> respects R (write_file key c).
Hypothesis R_append : forall key s, T key -> respects R (append_text key s).
Hypothesis R_ffmpeg :
  forall cmd w, T (List.last cmd EmptyString) -> R w (after_ffmpeg env cmd w).

Lemma locate_ffmpeg_respects : respects R (locate_ffmpeg env).
Proof.
  unfold locate_ffmpeg. destruct (get_ffmpeg_exe env).
  - apply (respects_ret R R_refl).
  - apply (respects_raise R R_refl).
Qed.

Lemma subprocess_run_respects (cmd : list string) :
  T (List.last cmd EmptyString) -> respects R (subprocess_run env cmd).
Proof.
  intros Ht w. rewrite subprocess_run_spec. simpl. now apply R_ffmpeg.
Qed.

Lemma extract_audio_respects (video_path output_path : string) :
  T (audio_target video_path output_path) ->
  respects R (extract_audio env video_path output_path).
Proof.
  intros Ht. unfold extract_audio.
  apply (respects_bind R R_trans); [apply locate_ffmpeg_respects | intros exe].
  apply (respects_bind R R_trans);
    [apply (respects_path_exists R R_refl R_trans) | intros present].
  destruct present.
  - apply (respects_bind R R_trans); [apply R_print | intros _].
    apply (respects_ret R R_refl).
  - apply (respects_bind R R_trans); [apply R_print | intros _].
    apply (respects_bind R R_trans);
      [apply subprocess_run_respects; exact Ht | intros result].
    apply respects_if; [ | apply (respects_ret R R_refl)].
    apply (respects_bind R R_trans); [apply R_print | intros _].
    apply (respects_ret R R_refl).
Qed.




End ComponentsRespect.

Section OrchestratorRespects.
Context {A : Arith}.
Variable env : Env.
Variable R : World -> World -> Prop.
Hypothesis R_refl : forall w, R w w.
Hypothesis R_trans : forall w1 w2 w3, R w1 w2 -> R w2 w3 -> R w1 w3.
Hypothesis R_print : forall s, respects R (print s).
Hypothesis R_log : forall c, respects R (log_call c).
Hypothesis R_mkdir : forall p, respects R (mkdir p).
Hypothesis R_write :
  forall key c, under ANALYSIS_DIR key -> respects R (write_file key c).
Hypothesis R_append :
  forall key s, under ANALYSIS_DIR key -> respects R (append_text key s).
Hypothesis R_ffmpeg :
  forall cmd w, under ANALYSIS_DIR (List.last cmd EmptyString) ->
                R w (after_ffmpeg env cmd w).








End OrchestratorRespects.

Section WorldRelationFacts.
Context {A : Arith}.
Variable env : Env.




Lemma same_outside_print (T : string -> Prop) (s : string) :
  respects (same_outside T) (print s).
Proof. intros w p _. reflexivity. Qed.




Lemma same_outside_ffmpeg (T : string -> Prop) (cmd : list string) (w : World) :
  T (List.last cmd EmptyString) -> same_outside T w (after_ffmpeg env cmd w).
Proof.
  intros Hkey p Hp. unfold after_ffmpeg. simpl.
  destruct (written (run_ffmpeg env cmd (fs w))); [ | reflexivity].
  apply lookup_insert_ne. intros E. rewrite E in Hkey. contradiction.
Qed.

End WorldRelationFacts.

(** [extract_audio] changes nothing but the target WAV: every other path
    holds after the call what it held before, whether the file was reused,
    the transcoder succeeded or failed, or the executable was not found. *)
Theorem extract_audio_touches_only_target {A : Arith} (env : Env)
    (video_path output_path : string) (w : World) (p : string) :
  p <> audio_target video_path output_path ->
  fs (snd (extract_audio env video_path output_path w)) !! p = fs w !! p.
Proof.
  intros Hp.
  apply (extract_audio_respects env
           (same_outside (fun q => q = audio_target video_path output_path))
           (fun q => q = audio_target video_path output_path)
           (same_outside_refl _) (same_outside_trans _)
           (same_outside_print _) (same_outside_ffmpeg env _));
    [reflexivity | exact Hp].
Qed.

Lemma extract_audio_touches_only_target_witness :
  fs (snd (extract_audio (A := Binary64) env_one_segment "Videos/clip.mp4" "out"
             (world_with "Videos/clip.mp4" FOther))) !! "Videos/clip.mp4"
  = Some FOther.
Proof.
  rewrite (extract_audio_touches_only_target (A := Binary64) env_one_segment
             "Videos/clip.mp4" "out" (world_with "Videos/clip.mp4" FOther)
             "Videos/clip.mp4").
  - reflexivity.
  - discriminate.
Defined.





(** ** More on the audio extractor *)

Section AudioExtractor.
Context {A : Arith}.
Variable env : Env.

Lemma extract_audio_reuses_existing_again (video_path output_path exe : string)
    (c : File) (w : World) :
  get_ffmpeg_exe env = Some exe ->
  fs w !! audio_target video_path output_path = Some c ->
  exists w',
    extract_audio env video_path output_path w
      = (Ok (Some (audio_target video_path output_path)), w') /\
    calls w' = calls w /\
    fs w' = fs w.
Proof.
  intros Hexe Hc. unfold extract_audio.
  fold (audio_target video_path output_path).
  rewrite (bind_ok _ _ _ _ _ (locate_ffmpeg_found env exe w Hexe)).
  rewrite (bind_ok _ _ _ _ _ (path_exists_present _ c w Hc)).
  rewrite (bind_ok _ _ _ _ _ (print_said _ w)).
  eexists. split; [reflexivity | ]. split; reflexivity.
Qed.

(** When the target WAV is absent and the transcoder exits with code 0,
    [extract_audio] returns the target path, having run the transcoder
    exactly once, on the fixed command line, and having written nothing
    itself: the target holds what the transcoder left there, if
    anything. *)
Theorem extract_audio_runs_transcoder_once (video_path output_path exe : string)
    (w : World) :
  get_ffmpeg_exe env = Some exe ->
  fs w !! audio_target video_path output_path = None ->
  returncode (run_ffmpeg env
                (ffmpeg_command exe video_path (audio_target video_path output_path))
                (fs w)) = 0 ->
  exists w',
    extract_audio env video_path output_path w
      = (Ok (Some (audio_target video_path output_path)), w') /\
    calls w' = (calls w ++
                [CallFfmpeg [exe; "-i"; video_path; "-vn"; "-acodec"; "pcm_s16le";
                             "-ar"; "16000"; "-ac"; "1"; "-y";
                             audio_target video_path output_path]])%list /\
    fs w' !! audio_target video_path output_path
      = written (run_ffmpeg env
                   (ffmpeg_command exe video_path
                      (audio_target video_path output_path)) (fs w)).
Proof.
  intros Hexe Habs Hrc. unfold extract_audio.
  fold (audio_target video_path output_path).
  rewrite (bind_ok _ _ _ _ _ (locate_ffmpeg_found env exe w Hexe)).
  rewrite (bind_ok _ _ _ _ _ (path_exists_absent _ w Habs)).
  rewrite (bind_ok _ _ _ _ _ (print_said _ w)).
  rewrite (bind_ok _ _ _ _ _ (subprocess_run_spec env _ _)).
  cbn [fs said]. rewrite Hrc. cbn [Z.eqb negb].
  eexists. split; [reflexivity | ]. split; [reflexivity | ].
  unfold after_ffmpeg. cbn [fs said].
  destruct (written _) eqn:E.
  - apply lookup_insert_eq.
  - exact Habs.
Qed.

(** A file the transcoder leaves at the target is reused by the next call
    whatever the exit code was: after a first call that ran the transcoder,
    which wrote the target, a second call returns the target path without
    running anything, even when the first call had failed and returned no
    result. *)
Theorem extract_audio_reuses_transcoder_output (video_path output_path exe : string)
    (c : File) (w : World) :
  get_ffmpeg_exe env = Some exe ->
  fs w !! audio_target video_path output_path = None ->
  written (run_ffmpeg env
             (ffmpeg_command exe video_path (audio_target video_path output_path))
             (fs w)) = Some c ->
  exists w1 w2,
    extract_audio env video_path output_path w
      = (if returncode (run_ffmpeg env
                          (ffmpeg_command exe video_path
                             (audio_target video_path output_path)) (fs w)) =? 0
         then Ok (Some (audio_target video_path output_path))
         else Ok None, w1) /\
    extract_audio env video_path output_path w1
      = (Ok (Some (audio_target video_path output_path)), w2) /\
    calls w2 = calls w1 /\
    fs w2 = fs w1 /\
    fs w2 !! audio_target video_path output_path = Some c.
Proof.
  intros Hexe Habs Hwritten.
  assert (Hfirst : exists w1,
             extract_audio env video_path output_path w
             = (if returncode (run_ffmpeg env
                                 (ffmpeg_command exe video_path
                                    (audio_target video_path output_path)) (fs w)) =? 0
                then Ok (Some (audio_target video_path output_path))
                else Ok None, w1) /\
             fs w1 !! audio_target video_path output_path = Some c).
  { unfold extract_audio. fold (audio_target video_path output_path).
    rewrite (bind_ok _ _ _ _ _ (locate_ffmpeg_found env exe w Hexe)).
    rewrite (bind_ok _ _ _ _ _ (path_exists_absent _ w Habs)).
    rewrite (bind_ok _ _ _ _ _ (print_said _ w)).
    rewrite (bind_ok _ _ _ _ _ (subprocess_run_spec env _ _)).
    cbn [fs said].
    destruct (returncode _ =? 0); cbn [negb].
    - eexists. split; [reflexivity | ].
      unfold after_ffmpeg. cbn [fs said]. rewrite Hwritten.
      apply lookup_insert_eq.
    - rewrite (bind_ok _ _ _ _ _ (print_said _ _)).
      eexists. split; [reflexivity | ].
      unfold after_ffmpeg. cbn [fs said]. rewrite Hwritten.
      apply lookup_insert_eq. }
  destruct Hfirst as (w1 & Hfirst & Hfile).
  destruct (extract_audio_reuses_existing_again video_path output_path exe c w1
              Hexe Hfile) as (w2 & Hsecond & Hcalls & Hfs).
  exists w1, w2. rewrite Hfs. auto.
Qed.

End AudioExtractor.

Lemma extract_audio_runs_transcoder_once_witness :
  exists w',
    extract_audio (A := Binary64) env_one_segment "Videos/clip.mp4" "out" world_empty
      = (Ok (Some "out/clip.wav"), w') /\
    fs w' !! "out/clip.wav" = None.
Proof.
  destruct (extract_audio_runs_transcoder_once (A := Binary64) env_one_segment
              "Videos/clip.mp4" "out" "ffmpeg" world_empty eq_refl eq_refl eq_refl)
    as (w' & H & _ & Hfile).
  exists w'. split; [exact H | exact Hfile].
Defined.

Lemma extract_audio_reuses_transcoder_output_witness :
  exists w1 w2,
    extract_audio (A := Binary64) env_partial_output "Videos/clip.mp4" "out" world_empty
      = (Ok None, w1) /\
    extract_audio (A := Binary64) env_partial_output "Videos/clip.mp4" "out" w1
      = (Ok (Some "out/clip.wav"), w2) /\
    calls w2 = calls w1.
Proof.
  destruct (extract_audio_reuses_transcoder_output (A := Binary64) env_partial_output
              "Videos/clip.mp4" "out" "ffmpeg" (FWav []) world_empty
              eq_refl eq_refl eq_refl)
    as (w1 & w2 & H1 & H2 & Hcalls & _).
  exists w1, w2. split; [exact H1 | ]. split; [exact H2 | exact Hcalls].
Defined.

(** ** More on the frame sampler *)

Lemma length_append_string (a b : string) :
  String.length (a +:+ b) = (String.length a + String.length b)%nat.
Proof.
  induction a as [|x a IH]; [reflexivity | ].
  change (S (String.length (a +:+ b)) = S (String.length a + String.length b)).
  now rewrite IH.
Qed.

Lemma path_join_longer (dir x : string) :
  (String.length dir < String.length (path_join dir x))%nat.
Proof.
  unfold path_join. rewrite !length_append_string. simpl. lia.
Qed.

Lemma not_under_self (dir : string) : ~ under dir dir.
Proof.
  intros [x Hx]. pose proof (path_join_longer dir x) as H.
  rewrite <- Hx in H. lia.
Qed.

Lemma ancestors_from_shorter (s acc x : string) :
  In x (ancestors_from acc s) ->
  (String.length x < String.length acc + String.length s)%nat.
Proof.
  revert acc. induction s as [|a r IH]; intros acc H; [destruct H | ].
  cbn [ancestors_from] in H. cbn [String.length].
  destruct (Ascii.eqb a "/").
  - destruct H as [<- | H]; [lia | ].
    apply IH in H. rewrite length_append_string in H. simpl in H. lia.
  - apply IH in H. rewrite length_append_string in H. simpl in H. lia.
Qed.

Lemma mkdir_fold_other {A : Arith} (l : list string) (f : gmap string File)
    (p : string) :
  ~ In p l -> fold_left mkdir_one l f !! p = f !! p.
Proof.
  revert f. induction l as [|q l IH]; intros f H; [reflexivity | ].
  simpl. rewrite IH by (intros Hin; apply H; now right).
  unfold mkdir_one. destruct (f !! q); [reflexivity | ].
  apply lookup_insert_ne. intros ->. apply H. now left.
Qed.

Lemma mkdir_fold_makes {A : Arith} (l : list string) (f : gmap string File)
    (p : string) :
  In p l -> is_Some (fold_left mkdir_one l f !! p).
Proof.
  revert f. induction l as [|q l IH]; intros f H; [destruct H | ].
  simpl. destruct H as [-> | H]; [ | now apply IH].
  assert (Hq : is_Some (mkdir_one f p !! p)).
  { unfold mkdir_one. destruct (f !! p) eqn:E; [rewrite E; eauto | ].
    rewrite lookup_insert_eq. eauto. }
  destruct Hq as [c Hc]. exists c. now apply mkdir_fold_keeps.
Qed.

Section SamplerEdges.
Context {A : Arith}.

(** [mkdir] leaves the paths below the directory as they are. *)
Lemma mkdir_below (dir x : string) (w : World) :
  fs (snd (mkdir dir w)) !! path_join dir x = fs w !! path_join dir x.
Proof.
  simpl. apply mkdir_fold_other. intros Hin.
  pose proof (path_join_longer dir x) as Hlen.
  apply in_app_or in Hin. destruct Hin as [Hin | [Hin | []]].
  - apply ancestors_from_shorter in Hin.
    change (String.length EmptyString) with 0%nat in Hin. lia.
  - rewrite <- Hin in Hlen. lia.
Qed.

Lemma mkdir_makes (dir : string) (w : World) :
  is_Some (fs (snd (mkdir dir w)) !! dir).
Proof. simpl. apply mkdir_fold_makes. apply in_or_app. right. now left. Qed.

(** A sampling rate of zero: the quotient [fps / fps_sample] raises
    [ZeroDivisionError] before anything is created; the file system is
    left as it was. *)
Theorem zero_sampling_rate_raises (video_path output_dir : string)
    (fps_sample : num) (v : Video) (n : Z) (w : World) :
  fs w !! video_path = Some (FVideo v) ->
  py_int (prop_frame_count v) = Ok n ->
  is_zero (prop_fps v) = false ->
  is_zero fps_sample = true ->
  exists w',
    extract_frames video_path output_dir fps_sample w
      = (Raise ZeroDivisionError, w') /\
    fs w' = fs w.
Proof.
  intros Hfile Hcount Hfps Hrate. unfold extract_frames.
  rewrite (bind_ok _ _ _ _ _ (print_said _ w)).
  rewrite (bind_ok _ _ _ _ _ (VideoCapture_open video_path v (said w _) Hfile)).
  rewrite (bind_ok _ _ _ _ _ (lift_ok _ _ _ Hcount)).
  rewrite (bind_ok _ _ _ _ _ (lift_ok _ _ _ (py_truediv_ok (of_int n) _ Hfps))).
  rewrite (bind_ok _ _ _ _ _ (print_said _ _)).
  assert (Hdiv : frame_interval_of (prop_fps v) fps_sample = Raise ZeroDivisionError).
  { unfold frame_interval_of, py_truediv. now rewrite Hrate. }
  rewrite (bind_raise _ _ _ _ _ (lift_raise _ _ _ Hdiv)).
  eexists. split; reflexivity.
Qed.

(** A sampling rate above the frame rate, so that the stride
    [int(fps / fps_sample)] is 0, on a source with at least one frame:
    [frame_count % frame_interval] raises [ZeroDivisionError] at the first
    frame, after the output directory was created; no frame is saved and
    no manifest is written. *)
Theorem zero_stride_raises (video_path output_dir : string)
    (fps_sample : num) (v : Video) (n : Z) (w : World) :
  fs w !! video_path = Some (FVideo v) ->
  py_int (prop_frame_count v) = Ok n ->
  is_zero (prop_fps v) = false ->
  frame_interval_of (prop_fps v) fps_sample = Ok 0 ->
  decoded v <> [] ->
  exists w',
    extract_frames video_path output_dir fps_sample w
      = (Raise ZeroDivisionError, w') /\
    is_Some (fs w' !! output_dir) /\
    forall x, fs w' !! path_join output_dir x = fs w !! path_join output_dir x.
Proof.
  intros Hfile Hcount Hfps Hstride Hframes. unfold extract_frames.
  rewrite (bind_ok _ _ _ _ _ (print_said _ w)).
  rewrite (bind_ok _ _ _ _ _ (VideoCapture_open video_path v (said w _) Hfile)).
  rewrite (bind_ok _ _ _ _ _ (lift_ok _ _ _ Hcount)).
  rewrite (bind_ok _ _ _ _ _ (lift_ok _ _ _ (py_truediv_ok (of_int n) _ Hfps))).
  rewrite (bind_ok _ _ _ _ _ (print_said _ _)).
  rewrite (bind_ok _ _ _ _ _ (lift_ok _ _ _ Hstride)).
  match goal with
  | |- context [ (mkdir output_dir ≫= _) ?w0 ] =>
      pose proof (mkdir_makes output_dir w0) as Hdir;
      pose proof (fun x => mkdir_below output_dir x w0) as Hbelow;
      destruct (mkdir output_dir w0) as [r wm] eqn:Hmk;
      assert (Hr : r = Ok tt) by (now inversion Hmk); subst r;
      rewrite (bind_ok _ _ _ _ _ Hmk)
  end.
  destruct (decoded v) as [|frame rest]; [contradiction | ].
  assert (Hloop : frame_loop (prop_fps v) 0 output_dir (frame :: rest) 0 0 [] wm
                  = (Raise ZeroDivisionError, wm)).
  { cbn [frame_loop]. apply bind_raise. reflexivity. }
  rewrite (bind_raise _ _ _ _ _ Hloop).
  exists wm. split; [reflexivity | ]. split; [exact Hdir | exact Hbelow].
Qed.

End SamplerEdges.

Lemma zero_sampling_rate_raises_witness :
  exists w',
    extract_frames (A := Binary64) "Videos/clip.mp4" "out" (of_int 0)
      (world_with "Videos/clip.mp4" (FVideo (clip (of_int 30) 3 640 360)))
    = (Raise ZeroDivisionError, w').
Proof.
  edestruct (zero_sampling_rate_raises (A := Binary64) "Videos/clip.mp4" "out"
               (of_int 0) (clip (of_int 30) 3 640 360) 3
               (world_with "Videos/clip.mp4" (FVideo (clip (of_int 30) 3 640 360))))
    as (w' & H & _).
  - reflexivity.
  - reflexivity.
  - reflexivity.
  - reflexivity.
  - exists w'. exact H.
Defined.

Lemma zero_stride_raises_witness :
  exists w',
    extract_frames (A := Binary64) "Videos/clip.mp4" "out" (of_int 60)
      (world_with "Videos/clip.mp4" (FVideo (clip (of_int 30) 3 640 360)))
    = (Raise ZeroDivisionError, w').
Proof.
  edestruct (zero_stride_raises (A := Binary64) "Videos/clip.mp4" "out"
               (of_int 60) (clip (of_int 30) 3 640 360) 3
               (world_with "Videos/clip.mp4" (FVideo (clip (of_int 30) 3 640 360))))
    as (w' & H & _).
  - reflexivity.
  - reflexivity.
  - reflexivity.
  - reflexivity.
  - discriminate.
  - exists w'. exact H.
Defined.

Section SavedFrames.
Context {A : Arith}.






(** Whenever [extract_frames] returns normally on a source that opened,
    the output directory exists and the manifest on disk lists exactly the
    frames returned. *)
Theorem manifest_is_the_returned_list (video_path output_dir : string)
    (fps_sample : num) (v : Video) (l : list ExtractedFrame) (w w' : World) :
  fs w !! video_path = Some (FVideo v) ->
  extract_frames video_path output_dir fps_sample w = (Ok l, w') ->
  fs w' !! path_join output_dir "frame_index.json"
    = Some (FJson (JArr (map frame_json l))) /\
  is_Some (fs w' !! output_dir).
Proof.
  intros Hfile H. unfold extract_frames in H.
  rewrite (bind_ok _ _ _ _ _ (print_said _ w)) in H.
  rewrite (bind_ok _ _ _ _ _ (VideoCapture_open video_path v (said w _) Hfile)) in H.
  bind_cases H. bind_cases H.
  rewrite (bind_ok _ _ _ _ _ (print_said _ _)) in H.
  bind_cases H. bind_cases H. bind_cases H. destruct r3 as [saved extracted].
  rewrite (bind_ok _ _ _ _ _ (print_said _ _)) in H.
  inversion H; subst. clear H. cbn [fs said].
  split; [apply lookup_insert_eq | ].
  pose proof (mkdir_makes output_dir w2) as [c Hdir]. rewrite E2 in Hdir. simpl in Hdir.
  exists c.
  rewrite lookup_insert_ne
    by (intros Heq; pose proof (path_join_longer output_dir "frame_index.json");
        rewrite Heq in *; lia).
  pose proof (frame_loop_respects (keeps_files (fun q => ~ under output_dir q))
                (keeps_files_refl _) (keeps_files_trans _) (keeps_files_print _)
                output_dir) as Hkeep.
  eapply (fun Hw => Hkeep Hw (prop_fps v) r1 (decoded v) 0 0 [] w3 output_dir c
                      (not_under_self output_dir)) in Hdir.
  - rewrite E3 in Hdir. exact Hdir.
  - intros x c'. apply keeps_files_write. intros Hn. apply Hn. now exists x.
Qed.


End SavedFrames.

Lemma manifest_is_the_returned_list_witness :
  exists w',
    fs w' !! "out/frame_index.json"
      = Some (FJson (JArr [JObj [("filename", JStr "frame_0000_t0.0s.jpg");
                                 ("timestamp", JNum (of_int 0));
                                 ("frame_number", JInt 0)]])) /\
    is_Some (fs (A := Binary64) w' !! "out").
Proof.
  eexists.
  eapply (manifest_is_the_returned_list (A := Binary64) "Videos/clip.mp4" "out"
            one_half (clip (of_int 30) 3 640 360)
            [{| filename := "frame_0000_t0.0s.jpg"; timestamp := of_int 0;
                frame_number := 0 |}]
            (world_with "Videos/clip.mp4" (FVideo (clip (of_int 30) 3 640 360)))).
  - reflexivity.
  - etransitivity; [apply surjective_pairing | apply f_equal2; reflexivity].
Defined.


(** ** Which frame is saved under which index *)

Lemma kept_numbers_snoc (s : Z) (n : nat) :
  kept_numbers s 0 (S n)
  = (kept_numbers s 0 n
     ++ if Z.of_nat n mod s =? 0 then [Z.of_nat n] else [])%list.
Proof.
  unfold kept_numbers. rewrite zrange_snoc, List.filter_app.
  cbn [List.filter]. rewrite Z.add_0_l.
  destruct (Z.of_nat n mod s =? 0); reflexivity.
Qed.

(** The kept frame numbers are the first [ceil(n / s)] multiples of the
    stride. *)
Lemma kept_numbers_multiples (s : Z) (n : nat) :
  1 <= s ->
  kept_numbers s 0 n
  = map (fun i => i * s) (zrange (Z.to_nat ((Z.of_nat n + s - 1) / s)) 0).
Proof.
  intros Hs. induction n as [|n IH].
  - rewrite Z.div_small by lia. reflexivity.
  - rewrite kept_numbers_snoc, IH. rewrite Nat2Z.inj_succ.
    replace (Z.succ (Z.of_nat n) + s - 1) with (Z.of_nat n + 1 + s - 1) by lia.
    rewrite ceil_div_succ by lia.
    assert (Hc : 0 <= (Z.of_nat n + s - 1) / s) by (apply Z.div_pos; lia).
    destruct (Z.eqb_spec (Z.of_nat n mod s) 0) as [E|E].
    + rewrite Z2Nat.inj_add by lia. change (Z.to_nat 1) with 1%nat.
      rewrite Nat.add_1_r, zrange_snoc, map_app. cbn [map]. rewrite Z.add_0_l.
      rewrite Z2Nat.id by lia. do 2 f_equal.
      pose proof (Z.div_mod (Z.of_nat n) s ltac:(lia)) as Hdm.
      rewrite <- (Z.div_unique (Z.of_nat n + s - 1) s (Z.of_nat n / s) (s - 1)) by lia.
      lia.
    + rewrite Z.add_0_r, app_nil_r. reflexivity.
Qed.

Lemma zrange_nth (n : nat) (lo : Z) (i : nat) :
  (i < n)%nat -> nth_error (zrange n lo) i = Some (lo + Z.of_nat i).
Proof.
  revert lo i. induction n as [|n IH]; intros lo i H; [lia | ].
  destruct i as [|i]; simpl.
  - f_equal. lia.
  - rewrite IH by lia. f_equal. lia.
Qed.

Lemma entries_nth {A : Arith} (fps : num) (ks : list Z) :
  forall (saved : Z) (i : nat) (k : Z),
    nth_error ks i = Some k ->
    nth_error (entries fps saved ks) i
    = Some {| filename := frame_filename (saved + Z.of_nat i) (fdiv (of_int k) fps);
              timestamp := fdiv (of_int k) fps;
              frame_number := k |}.
Proof.
  induction ks as [|k0 ks IH]; intros saved i k H; [destruct i; discriminate H | ].
  destruct i as [|i]; simpl in *.
  - inversion H. now rewrite Z.add_0_r.
  - rewrite (IH _ _ _ H). do 3 f_equal. lia.
Qed.

(** On a source that opens, with a usable frame count, a non-zero frame
    rate and a stride [s >= 1]: for every [i] below the number of saved
    frames, the [i]-th entry returned is source frame number [i * s], its
    timestamp is [i * s / fps], and its file name carries the sequence
    index [i] and that timestamp. *)
Theorem nth_saved_frame {A : Arith} (video_path output_dir : string)
    (fps_sample : num) (v : Video) (n s : Z) (w : World) (i : nat) :
  fs w !! video_path = Some (FVideo v) ->
  py_int (prop_frame_count v) = Ok n ->
  is_zero (prop_fps v) = false ->
  frame_interval_of (prop_fps v) fps_sample = Ok s ->
  1 <= s ->
  Forall (fun f => exists f', downscale f = Ok f') (decoded v) ->
  Z.of_nat i < (Z.of_nat (length (decoded v)) + s - 1) / s ->
  exists l w',
    extract_frames video_path output_dir fps_sample w = (Ok l, w') /\
    nth_error l i
    = Some {| filename := frame_filename (Z.of_nat i)
                            (fdiv (of_int (Z.of_nat i * s)) (prop_fps v));
              timestamp := fdiv (of_int (Z.of_nat i * s)) (prop_fps v);
              frame_number := Z.of_nat i * s |}.
Proof.
  intros Hfile Hcount Hfps Hstride Hs Hscale Hi.
  destruct (extract_frames_spec video_path output_dir fps_sample v n s w
              Hfile Hcount Hfps Hstride ltac:(lia) Hscale) as (w' & Hrun & _).
  eexists. exists w'. split; [exact Hrun | ].
  rewrite (entries_nth _ _ 0 i (Z.of_nat i * s)); [reflexivity | ].
  rewrite kept_numbers_multiples by exact Hs.
  rewrite nth_error_map, zrange_nth by lia. reflexivity.
Qed.

Lemma nth_saved_frame_witness :
  exists l w',
    extract_frames (A := Binary64) "Videos/clip.mp4" "out" one_half
      (world_with "Videos/clip.mp4" (FVideo (clip (of_int 30) 300 1920 1080)))
    = (Ok l, w') /\
    nth_error l 3
    = Some {| filename := frame_filename 3 (fdiv (of_int (3 * 60)) (of_int 30));
              timestamp := fdiv (of_int (3 * 60)) (of_int 30);
              frame_number := 3 * 60 |}.
Proof.
  eapply (nth_saved_frame (A := Binary64) "Videos/clip.mp4" "out" one_half
            (clip (of_int 30) 300 1920 1080) 300 60
            (world_with "Videos/clip.mp4" (FVideo (clip (of_int 30) 300 1920 1080)))
            3).
  - reflexivity.
  - reflexivity.
  - reflexivity.
  - reflexivity.
  - lia.
  - eapply clip_frames_downscale. reflexivity.
  - unfold clip. cbn [decoded]. rewrite repeat_length. vm_compute. reflexivity.
Defined.

(** ** More on the transcriber *)

Lemma frombuffer_int16_odd (bs : list byte) :
  Nat.Odd (length bs) -> frombuffer_int16 bs = Raise ValueError.
Proof.
  induction bs as [| b | lo hi rest IH] using byte_pairs_ind; intros H.
  - destruct H as [k Hk]. simpl in Hk. lia.
  - reflexivity.
  - simpl. rewrite IH; [reflexivity | ].
    destruct H as [k Hk]. simpl in Hk. exists (k - 1)%nat. lia.
Qed.

Section TranscriberEdges.
Context {A : Arith}.
Variable env : Env.

(** A WAV whose data is not a whole number of 16-bit samples makes the
    loader raise [ValueError]; the world is left as it was. *)
Theorem odd_buffer_raises (file_path : string) (frames : list byte) (w : World) :
  fs w !! file_path = Some (FWav frames) ->
  Nat.Odd (length frames) ->
  load_audio_from_wav file_path w = (Raise ValueError, w).
Proof.
  intros Hfile Hodd. unfold load_audio_from_wav. run_step. rewrite Hfile.
  unfold decode_samples. now rewrite frombuffer_int16_odd.
Qed.


Lemma write_segments_raises (p : string) (bad : Segment) (post : list Segment)
    (e : exn) (pre : list Segment) :
  Forall (fun s => exists line, segment_line s = Ok line) pre ->
  segment_line bad = Raise e ->
  forall (t : string) (w : World),
    fs w !! p = Some (FText t) ->
    exists t',
      write_segments p (pre ++ bad :: post) w
      = (Raise e, {| fs := <[p := FText t']> (fs w);
                     console := console w; calls := calls w |}).
Proof.
  intros Hok Hbad. induction Hok as [|segment pre [line Hline] _ IH];
    intros t w Hfile.
  - exists t. cbn [app write_segments].
    rewrite (bind_raise _ _ _ _ _ (lift_raise _ _ w Hbad)).
    rewrite insert_id by exact Hfile. now destruct w.
  - cbn [app write_segments].
    rewrite (bind_ok _ _ _ _ _ (lift_ok _ _ w Hline)).
    rewrite (bind_ok _ _ _ _ _ (append_text_spec p t line w Hfile)).
    destruct (IH (t +:+ line)
                {| fs := <[p := FText (t +:+ line)]> (fs w);
                   console := console w; calls := calls w |})
      as (t' & Hrun).
    { cbn [fs]. apply lookup_insert_eq. }
    exists t'. rewrite Hrun. cbn [fs console calls]. now rewrite insert_insert_eq.
Qed.

(** When a segment's timestamp cannot be printed (a NaN or an infinity,
    or beyond what [timedelta] holds), [transcribe_audio] raises from
    inside the writing of the text transcript: the text file is left
    behind, partly written, and the JSON transcript is not written at
    all. *)
Theorem bad_segment_leaves_partial_text
    (audio_path output_dir model_name : string) (frames : list byte)
    (audio : list num) (result : Transcript) (pre post : list Segment)
    (bad : Segment) (e : exn) (w : World) :
  load_model env model_name = true ->
  fs w !! audio_path = Some (FWav frames) ->
  decode_samples frames = Ok audio ->
  model_transcribe env model_name audio = Some result ->
  segments result = (pre ++ bad :: post)%list ->
  Forall (fun s => exists line, segment_line s = Ok line) pre ->
  segment_line bad = Raise e ->
  exists w' t,
    transcribe_audio env audio_path output_dir model_name w = (Raise e, w') /\
    fs w' !! transcript_txt_path audio_path output_dir = Some (FText t) /\
    fs w' !! transcript_json_path audio_path output_dir
      = fs w !! transcript_json_path audio_path output_dir.
Proof.
  intros Hload Hfile Hdec Hmodel Hsegs Hok Hbad. unfold transcribe_audio.
  fold (transcript_txt_path audio_path output_dir).
  fold (transcript_json_path audio_path output_dir).
  rewrite Hload.
  do 5 bind_run.
  erewrite bind_ok by (apply (load_audio_ok audio_path frames audio);
                       [exact Hfile | exact Hdec]).
  do 2 bind_run. rewrite Hmodel.
  do 2 bind_run. rewrite Hsegs. cbn [fs console calls].
  erewrite bind_ok by (apply append_text_spec; cbn [fs]; apply lookup_insert_eq).
  cbn [fs console calls]. rewrite insert_insert_eq.
  match goal with
  | |- context [ (write_segments ?p ?segs ≫= _) ?w0 ] =>
      destruct (write_segments_raises p bad post e pre Hok Hbad
                  ("# Transcript: " +:+ path_stem audio_path +:+ nl +:+ nl) w0)
        as (t' & Hrun);
      [ cbn [fs]; apply lookup_insert_eq | ]
  end.
  rewrite (bind_raise _ _ _ _ _ Hrun).
  eexists. exists t'. split; [reflexivity | ]. cbn [fs].
  rewrite insert_insert_eq. split; [apply lookup_insert_eq | ].
  apply lookup_insert_ne. intros Heq. symmetry in Heq.
  now apply transcript_paths_differ in Heq.
Qed.

End TranscriberEdges.

Lemma odd_buffer_raises_witness :
  load_audio_from_wav (A := Binary64) "a.wav"
    (world_with "a.wav" (FWav ["000"; "128"; "255"]%byte))
  = (Raise ValueError, world_with "a.wav" (FWav ["000"; "128"; "255"]%byte)).
Proof.
  apply (odd_buffer_raises (A := Binary64) "a.wav" ["000"; "128"; "255"]%byte).
  - reflexivity.
  - exists 1%nat. reflexivity.
Defined.


Lemma bad_segment_leaves_partial_text_witness :
  exists w' t,
    transcribe_audio (A := Binary64) env_nan_segment "t/a.wav" "t" "base"
      (world_with "t/a.wav" (FWav ["000"; "128"; "255"; "127"]%byte))
    = (Raise ValueError, w') /\
    fs w' !! "t/a_transcript.txt" = Some (FText t) /\
    fs w' !! "t/a_transcript.json" = None.
Proof.
  eapply (bad_segment_leaves_partial_text (A := Binary64) env_nan_segment
            "t/a.wav" "t" "base" ["000"; "128"; "255"; "127"]%byte
            (map normalize_sample [-32768; 32767]) _
            [{| seg_start := of_int 0; seg_end := of_int 1; seg_text := " One." |}]
            []
            {| seg_start := fdiv (of_int 0) (of_int 0); seg_end := of_int 2;
               seg_text := " Two." |}).
  - reflexivity.
  - reflexivity.
  - reflexivity.
  - reflexivity.
  - reflexivity.
  - repeat constructor. eexists. reflexivity.
  - reflexivity.
Defined.

(** ** More on the orchestrator *)

Section OrchestratorEdges.
Context {A : Arith}.
Variable env : Env.

Lemma main_with_prelude (videos : list VideoJob) (exe : string) (w : World) :
  get_ffmpeg_exe env = Some exe ->
  main_with env videos w
  = (run_jobs env videos 1 [] ≫= save_summary) (after_prelude exe w).
Proof.
  intros Hexe. unfold main_with.
  rewrite (bind_ok _ _ _ _ _ (print_said _ w)).
  rewrite (bind_ok _ _ _ _ _ (print_said _ _)).
  rewrite (bind_ok _ _ _ _ _ (print_said _ _)).
  rewrite (bind_ok _ _ _ _ _ (locate_ffmpeg_found env exe _ Hexe)).
  rewrite (bind_ok _ _ _ _ _ (print_said _ _)).
  rewrite !said_said. cbn [app].
  erewrite bind_ok by reflexivity. reflexivity.
Qed.

Lemma run_jobs_app (pre post : list VideoJob) :
  forall (i : Z) (results : list (string * VideoSummary)) (w : World),
    run_jobs env (pre ++ post) i results w
    = (run_jobs env pre i results
       ≫= fun r => run_jobs env post (i + Z.of_nat (length pre)) r) w.
Proof.
  induction pre as [|j pre IH]; intros i results w.
  - cbn [app run_jobs length]. unfold mbind, M_bind, mret, M_ret.
    now rewrite Z.add_0_r.
  - cbn [app run_jobs length]. unfold mbind, M_bind.
    destruct (process_video env i j results w) as [[r|e] w1]; [ | reflexivity].
    rewrite IH. unfold mbind, M_bind.
    replace (i + 1 + Z.of_nat (length pre)) with (i + Z.of_nat (S (length pre)))
      by lia.
    reflexivity.
Qed.

(** [main] catches nothing: when the jobs before [j] complete and the
    processing of [j] raises, the run ends there with that exception; the
    later jobs are not processed and the summary, with the results of the
    completed jobs, is never written. *)
Theorem job_exception_aborts_run (pre post : list VideoJob) (j : VideoJob)
    (exe : string) (e : exn) (results : list (string * VideoSummary))
    (w w1 w2 : World) :
  get_ffmpeg_exe env = Some exe ->
  run_jobs env pre 1 [] (after_prelude exe w) = (Ok results, w1) ->
  process_video env (1 + Z.of_nat (length pre)) j results w1 = (Raise e, w2) ->
  main_with env (pre ++ j :: post) w = (Raise e, w2).
Proof.
  intros Hexe Hpre Hjob.
  rewrite (main_with_prelude _ exe w Hexe).
  apply bind_raise. rewrite run_jobs_app.
  rewrite (bind_ok _ _ _ _ _ Hpre). cbn [run_jobs].
  now rewrite (bind_raise _ _ _ _ _ Hjob).
Qed.

(** An exception of the transcriber is not caught by the job: it leaves
    [process_video], and no entry is recorded for the job. *)
Theorem transcription_exception_escapes_job (i : Z) (j : VideoJob)
    (results : list (string * VideoSummary)) (frames : list ExtractedFrame)
    (p : string) (c : File) (e : exn) (w w1 w2 w3 : World) :
  is_Some (fs w !! job_video_path j) ->
  extract_frames (job_video_path j) (path_join FRAMES_DIR (job_name j)) one_half
                 (said w (job_banner i j)) = (Ok frames, w1) ->
  extract_audio env (job_video_path j) TRANSCRIPTS_DIR w1 = (Ok (Some p), w2) ->
  fs w2 !! p = Some c ->
  transcribe_audio env p TRANSCRIPTS_DIR "base" w2 = (Raise e, w3) ->
  process_video env i j results w = (Raise e, w3).
Proof.
  intros [c0 Hsrc] Hframes Haudio Hfile Htrans.
  rewrite process_video_banner.
  rewrite (bind_ok _ _ _ _ true (path_exists_present _ c0 (said w _) Hsrc)).
  cbn [negb].
  rewrite (bind_ok _ _ _ _ _ Hframes).
  rewrite (bind_ok _ _ _ _ _ Haudio).
  rewrite (bind_ok _ _ _ _ true (path_exists_present _ c w2 Hfile)).
  now rewrite (bind_raise _ _ _ _ _ Htrans).
Qed.

(** A job whose frames, audio and transcript all succeed gets an entry
    with the number of frames returned, the length of the transcript text
    and the number of its segments, and without an [error] key. *)
Theorem transcribed_job_entry (i : Z) (j : VideoJob)
    (results : list (string * VideoSummary)) (frames : list ExtractedFrame)
    (p : string) (c : File) (transcript : Transcript) (w w1 w2 w3 : World) :
  is_Some (fs w !! job_video_path j) ->
  extract_frames (job_video_path j) (path_join FRAMES_DIR (job_name j)) one_half
                 (said w (job_banner i j)) = (Ok frames, w1) ->
  extract_audio env (job_video_path j) TRANSCRIPTS_DIR w1 = (Ok (Some p), w2) ->
  fs w2 !! p = Some c ->
  transcribe_audio env p TRANSCRIPTS_DIR "base" w2 = (Ok transcript, w3) ->
  process_video env i j results w
    = (Ok (assoc_set (job_name j)
             (transcribed_summary j (Z.of_nat (length frames)) transcript)
             results), w3) /\
  json_get "error"
    (summary_json (transcribed_summary j (Z.of_nat (length frames)) transcript))
    = None /\
  json_get "segments_count"
    (summary_json (transcribed_summary j (Z.of_nat (length frames)) transcript))
    = Some (JInt (Z.of_nat (length (segments transcript)))) /\
  json_get "frames_extracted"
    (summary_json (transcribed_summary j (Z.of_nat (length frames)) transcript))
    = Some (JInt (Z.of_nat (length frames))).
Proof.
  intros [c0 Hsrc] Hframes Haudio Hfile Htrans.
  split; [ | repeat split].
  rewrite process_video_banner.
  rewrite (bind_ok _ _ _ _ true (path_exists_present _ c0 (said w _) Hsrc)).
  cbn [negb].
  rewrite (bind_ok _ _ _ _ _ Hframes).
  rewrite (bind_ok _ _ _ _ _ Haudio).
  rewrite (bind_ok _ _ _ _ true (path_exists_present _ c w2 Hfile)).
  now rewrite (bind_ok _ _ _ _ _ Htrans).
Qed.

(** An exit code of 0 is not enough: when the transcoder exits with code 0
    but leaves no file at the target, [extract_audio] returns the path,
    the orchestrator finds no file there, skips the transcription and
    records the job as "Audio extraction failed". *)
Theorem exit_zero_without_file_is_failure (i : Z) (j : VideoJob)
    (results : list (string * VideoSummary)) (exe : string)
    (frames : list ExtractedFrame) (w w1 : World) :
  is_Some (fs w !! job_video_path j) ->
  extract_frames (job_video_path j) (path_join FRAMES_DIR (job_name j)) one_half
                 (said w (job_banner i j)) = (Ok frames, w1) ->
  get_ffmpeg_exe env = Some exe ->
  fs w1 !! audio_target (job_video_path j) TRANSCRIPTS_DIR = None ->
  returncode (run_ffmpeg env
                (ffmpeg_command exe (job_video_path j)
                   (audio_target (job_video_path j) TRANSCRIPTS_DIR))
                (fs w1)) = 0 ->
  written (run_ffmpeg env
             (ffmpeg_command exe (job_video_path j)
                (audio_target (job_video_path j) TRANSCRIPTS_DIR))
             (fs w1)) = None ->
  exists w2,
    extract_audio env (job_video_path j) TRANSCRIPTS_DIR w1
      = (Ok (Some (audio_target (job_video_path j) TRANSCRIPTS_DIR)), w2) /\
    process_video env i j results w
      = (Ok (assoc_set (job_name j)
               (failed_summary j (Z.of_nat (length frames))) results), w2) /\
    calls w2 = (calls w1 ++
                [CallFfmpeg (ffmpeg_command exe (job_video_path j)
                               (audio_target (job_video_path j) TRANSCRIPTS_DIR))])%list.
Proof.
  intros [c0 Hsrc] Hframes Hexe Habs Hrc Hwritten.
  assert (Haudio : extract_audio env (job_video_path j) TRANSCRIPTS_DIR w1
                   = (Ok (Some (audio_target (job_video_path j) TRANSCRIPTS_DIR)),
                      after_ffmpeg env
                        (ffmpeg_command exe (job_video_path j)
                           (audio_target (job_video_path j) TRANSCRIPTS_DIR))
                        (said w1 ["  Extracting audio to: "
                                  +:+ path_name (audio_target (job_video_path j)
                                                   TRANSCRIPTS_DIR)]))).
  { unfold extract_audio. fold (audio_target (job_video_path j) TRANSCRIPTS_DIR).
    rewrite (bind_ok _ _ _ _ _ (locate_ffmpeg_found env exe w1 Hexe)).
    rewrite (bind_ok _ _ _ _ _ (path_exists_absent _ w1 Habs)).
    rewrite (bind_ok _ _ _ _ _ (print_said _ w1)).
    rewrite (bind_ok _ _ _ _ _ (subprocess_run_spec env _ _)).
    cbn [fs said]. rewrite Hrc. reflexivity. }
  eexists. split; [exact Haudio | ]. split; [ | reflexivity].
  rewrite process_video_banner.
  rewrite (bind_ok _ _ _ _ true (path_exists_present _ c0 (said w _) Hsrc)).
  cbn [negb].
  rewrite (bind_ok _ _ _ _ _ Hframes).
  rewrite (bind_ok _ _ _ _ _ Haudio).
  erewrite (bind_ok _ _ _ _ false).
  - reflexivity.
  - apply path_exists_absent. unfold after_ffmpeg. cbn [fs said].
    rewrite Hwritten. exact Habs.
Qed.

End OrchestratorEdges.

(** ** The persisted summary *)

Lemma assoc_set_keys_in {V : Type} (k k0 : string) (v : V)
    (l : list (string * V)) :
  In k0 (map fst (assoc_set k v l)) <-> k0 = k \/ In k0 (map fst l).
Proof.
  induction l as [|[k' v'] l IH]; simpl.
  - split; [intros [<- | []]; now left | intros [-> | []]; now left].
  - destruct (String.eqb k k') eqn:E; simpl.
    + apply String.eqb_eq in E. subst k'. intuition congruence.
    + rewrite IH. intuition congruence.
Qed.

Lemma assoc_set_keys_nodup {V : Type} (k : string) (v : V)
    (l : list (string * V)) :
  List.NoDup (map fst l) -> List.NoDup (map fst (assoc_set k v l)).
Proof.
  induction l as [|[k' v'] l IH]; simpl; intros H.
  - constructor; [intros [] | constructor].
  - destruct (String.eqb k k') eqn:E; simpl.
    + apply String.eqb_eq in E. now subst k'.
    + inversion H as [|? ? Hnin Hnd]; subst. constructor; [ | now apply IH].
      rewrite assoc_set_keys_in. intros [-> | Hin]; [ | contradiction].
      now rewrite String.eqb_refl in E.
Qed.

Section Summary.
Context {A : Arith}.
Variable env : Env.

Lemma run_jobs_keys (jobs : list VideoJob) :
  forall (i : Z) (results results' : list (string * VideoSummary)) (w w' : World),
    run_jobs env jobs i results w = (Ok results', w') ->
    (List.NoDup (map fst results) -> List.NoDup (map fst results')) /\
    (forall k, In k (map fst results') ->
       In k (map fst results) \/ exists j, In j jobs /\ job_name j = k).
Proof.
  induction jobs as [|j jobs IH]; intros i results results' w w' H.
  - inversion H. subst. split; [auto | intros k Hk; now left].
  - simpl in H. bind_cases H.
    destruct (IH _ _ _ _ _ H) as [Hnd Hin].
    destruct (process_video_results _ _ _ _ _ _ _ E) as [-> | [s ->]].
    + split; [exact Hnd | ].
      intros k Hk. destruct (Hin k Hk) as [Hk' | (j' & Hj' & <-)];
        [now left | right; exists j'; split; [now right | reflexivity]].
    + split; [intros H0; apply Hnd; now apply assoc_set_keys_nodup | ].
      intros k Hk. destruct (Hin k Hk) as [Hk' | (j' & Hj' & <-)].
      * apply assoc_set_keys_in in Hk'. destruct Hk' as [-> | Hk'];
          [right; exists j; split; [now left | reflexivity] | now left].
      * right; exists j'; split; [now right | reflexivity].
Qed.

(** When a run completes, the summary file holds a JSON object whose keys
    are pairwise distinct and are names of configured jobs: two jobs of
    the same name share one entry, and nothing else is ever listed. *)
Theorem summary_keys_are_distinct_job_names (videos : list VideoJob)
    (w w' : World) :
  main_with env videos w = (Ok tt, w') ->
  exists results,
    fs w' !! summary_file = Some (FJson (results_json results)) /\
    List.NoDup (map fst results) /\
    forall k, In k (map fst results) ->
              exists j, In j videos /\ job_name j = k.
Proof.
  intros H. destruct (get_ffmpeg_exe env) as [exe|] eqn:Hexe.
  - rewrite (main_with_prelude env _ exe w Hexe) in H. bind_cases H.
    destruct (save_summary_spec r w0) as (w1 & Hsave & Hfs & _).
    rewrite Hsave in H. inversion H. subst w1.
    exists r. split; [rewrite Hfs; apply lookup_insert_eq | ].
    destruct (run_jobs_keys _ _ _ _ _ _ E) as [Hnd Hin].
    split; [apply Hnd; constructor | ].
    intros k Hk. destruct (Hin k Hk) as [[] | Hj]. exact Hj.
  - unfold main_with in H.
    rewrite (bind_ok _ _ _ _ _ (print_said _ w)) in H.
    rewrite (bind_ok _ _ _ _ _ (print_said _ _)) in H.
    rewrite (bind_ok _ _ _ _ _ (print_said _ _)) in H.
    erewrite bind_raise in H
      by (unfold locate_ffmpeg; rewrite Hexe; reflexivity).
    discriminate H.
Qed.

Lemma video_path_not_made (f : string) :
  ~ In (path_join VIDEOS_DIR f) (ancestors TRANSCRIPTS_DIR ++ [TRANSCRIPTS_DIR])%list.
Proof.
  intros Hin. cbv in Hin.
  repeat (destruct Hin as [Hin | Hin]; [discriminate Hin | ]).
  exact Hin.
Qed.

Lemma run_jobs_no_sources (jobs : list VideoJob) :
  forall (i : Z) (results : list (string * VideoSummary)) (w : World),
    (forall j, In j jobs -> fs w !! job_video_path j = None) ->
    exists w',
      run_jobs env jobs i results w = (Ok results, w') /\
      fs w' = fs w /\ calls w' = calls w.
Proof.
  induction jobs as [|j jobs IH]; intros i results w Hmiss.
  - exists w. now split.
  - assert (Hstep : process_video env i j results w
                    = (Ok results,
                       said (said w (job_banner i j))
                         ["  ERROR: Video file not found: " +:+ job_video_path j])).
    { rewrite process_video_banner.
      rewrite (bind_ok _ _ _ _ false
                 (path_exists_absent _ (said w _) (Hmiss j (or_introl eq_refl)))).
      cbn [negb].
      rewrite (bind_ok _ _ _ _ _ (print_said _ _)). reflexivity. }
    cbn [run_jobs]. rewrite (bind_ok _ _ _ _ _ Hstep).
    destruct (IH (i + 1) results
                (said (said w (job_banner i j))
                   ["  ERROR: Video file not found: " +:+ job_video_path j]))
      as (w' & Hrun & Hfs & Hcalls).
    { intros j' Hj'. cbn [fs said]. apply Hmiss. now right. }
    exists w'. split; [exact Hrun | ]. split; [exact Hfs | exact Hcalls].
Qed.

(** When none of the configured source files exists, the run completes
    all the same: every job is skipped, no external program and no model
    is called, and the summary written is the empty object. *)
Theorem no_sources_empty_summary (videos : list VideoJob) (exe : string)
    (w : World) :
  get_ffmpeg_exe env = Some exe ->
  (forall j, In j videos -> fs w !! job_video_path j = None) ->
  exists w',
    main_with env videos w = (Ok tt, w') /\
    fs w' !! summary_file = Some (FJson (JObj [])) /\
    calls w' = calls w.
Proof.
  intros Hexe Hmiss.
  rewrite (main_with_prelude env _ exe w Hexe).
  destruct (run_jobs_no_sources videos 1 [] (after_prelude exe w))
    as (w1 & Hrun & Hfs1 & Hcalls1).
  { intros j Hj. unfold after_prelude. cbn [snd mkdir].
    change (fold_left mkdir_one (ancestors TRANSCRIPTS_DIR ++ [TRANSCRIPTS_DIR])
              (fs w) !! job_video_path j = None).
    rewrite mkdir_fold_other; [now apply Hmiss | apply video_path_not_made]. }
  rewrite (bind_ok _ _ _ _ _ Hrun).
  destruct (save_summary_spec [] w1) as (w2 & Hsave & Hfs2 & Hcalls2).
  exists w2. split; [exact Hsave | ]. split.
  - rewrite Hfs2. apply lookup_insert_eq.
  - now rewrite Hcalls2, Hcalls1.
Qed.

End Summary.

Lemma job_exception_aborts_run_witness :
  exists w2,
    main (A := Binary64) env_one_segment
      (world_video_wav (hd_video VIDEOS) (clip (of_int 30) 3 640 360) ["000"]%byte)
    = (Raise ValueError, w2).
Proof.
  eexists.
  eapply (job_exception_aborts_run (A := Binary64) env_one_segment []
            (tl VIDEOS) (hd_video VIDEOS) "ffmpeg" ValueError []).
  - reflexivity.
  - reflexivity.
  - etransitivity; [apply surjective_pairing | apply f_equal2; reflexivity].
Defined.

Lemma transcription_exception_escapes_job_witness :
  exists w3,
    process_video (A := Binary64) env_one_segment 1 (hd_video VIDEOS) []
      (world_video_wav (hd_video VIDEOS) (clip (of_int 30) 3 640 360) ["000"]%byte)
    = (Raise ValueError, w3).
Proof.
  eexists.
  eapply (transcription_exception_escapes_job (A := Binary64) env_one_segment 1
            (hd_video VIDEOS) []
            [{| filename := "frame_0000_t0.0s.jpg"; timestamp := of_int 0;
                frame_number := 0 |}]
            (audio_target (job_video_path (hd_video VIDEOS)) TRANSCRIPTS_DIR)
            (FWav ["000"]%byte) ValueError).
  - eexists. reflexivity.
  - etransitivity; [apply surjective_pairing | apply f_equal2; reflexivity].
  - etransitivity; [apply surjective_pairing | apply f_equal2; reflexivity].
  - reflexivity.
  - etransitivity; [apply surjective_pairing | apply f_equal2; reflexivity].
Defined.

Lemma transcribed_job_entry_witness :
  exists w3,
    process_video (A := Binary64) env_one_segment 1 (hd_video VIDEOS) []
      (world_video_wav (hd_video VIDEOS) (clip (of_int 30) 3 640 360)
         ["000"; "128"; "255"; "127"]%byte)
    = (Ok [("video1_zvl_rev_rate",
            {| title := job_title (hd_video VIDEOS);
               frames_extracted := 1;
               frames_dir := path_join FRAMES_DIR "video1_zvl_rev_rate";
               transcript_length := 13;
               segments_count := 1;
               error := None |})], w3).
Proof.
  edestruct (transcribed_job_entry (A := Binary64) env_one_segment 1
               (hd_video VIDEOS) []
               [{| filename := "frame_0000_t0.0s.jpg"; timestamp := of_int 0;
                   frame_number := 0 |}]
               (audio_target (job_video_path (hd_video VIDEOS)) TRANSCRIPTS_DIR)
               (FWav ["000"; "128"; "255"; "127"]%byte)
               {| full_text := " Hello there.";
                  segments := [{| seg_start := of_int 0;
                                  seg_end := fdiv (of_int 5) (of_int 2);
                                  seg_text := " Hello there." |}] |}
               (world_video_wav (hd_video VIDEOS) (clip (of_int 30) 3 640 360)
                  ["000"; "128"; "255"; "127"]%byte))
    as (H & _).
  - eexists. reflexivity.
  - etransitivity; [apply surjective_pairing | apply f_equal2; reflexivity].
  - etransitivity; [apply surjective_pairing | apply f_equal2; reflexivity].
  - reflexivity.
  - etransitivity; [apply surjective_pairing | apply f_equal2; reflexivity].
  - eexists. exact H.
Defined.

Lemma exit_zero_without_file_is_failure_witness :
  exists w2,
    process_video (A := Binary64) env_one_segment 1 (hd_video VIDEOS) []
      (world_with (job_video_path (hd_video VIDEOS))
         (FVideo (clip (of_int 30) 3 640 360)))
    = (Ok [("video1_zvl_rev_rate", failed_summary (hd_video VIDEOS) 1)], w2).
Proof.
  edestruct (exit_zero_without_file_is_failure (A := Binary64) env_one_segment 1
               (hd_video VIDEOS) [] "ffmpeg"
               [{| filename := "frame_0000_t0.0s.jpg"; timestamp := of_int 0;
                   frame_number := 0 |}]
               (world_with (job_video_path (hd_video VIDEOS))
                  (FVideo (clip (of_int 30) 3 640 360))))
    as (w2 & _ & H & _).
  - eexists. reflexivity.
  - etransitivity; [apply surjective_pairing | apply f_equal2; reflexivity].
  - reflexivity.
  - reflexivity.
  - reflexivity.
  - reflexivity.
  - exists w2. exact H.
Defined.

Lemma summary_keys_are_distinct_job_names_witness :
  exists results,
    fs (snd (main (A := Binary64) env_failing
               (world_with (job_video_path (hd_video VIDEOS))
                  (FVideo (clip (of_int 30) 3 640 360)))))
      !! summary_file = Some (FJson (results_json results)) /\
    List.NoDup (map fst results) /\
    forall k, In k (map fst results) -> exists j, In j VIDEOS /\ job_name j = k.
Proof.
  apply (summary_keys_are_distinct_job_names (A := Binary64) env_failing VIDEOS
           (world_with (job_video_path (hd_video VIDEOS))
              (FVideo (clip (of_int 30) 3 640 360)))).
  etransitivity; [apply surjective_pairing | apply f_equal2; reflexivity].
Defined.

Lemma no_sources_empty_summary_witness :
  exists w',
    main (A := Binary64) env_failing world_empty = (Ok tt, w') /\
    fs w' !! summary_file = Some (FJson (JObj [])) /\
    calls w' = [].
Proof.
  apply (no_sources_empty_summary (A := Binary64) env_failing VIDEOS "ffmpeg"
           world_empty).
  - reflexivity.
  - intros j _. reflexivity.
Defined.

(** ** The numbering of the saved frames *)











Section Numbering.
Context {A : Arith}.






End Numbering.


(** ** The timestamps of the text transcript *)

Lemma one_digit (h : Z) :
  0 <= h < 10 -> exists d, str_of_Z h = String d EmptyString /\ is_digit d = true.
Proof.
  intros Hh.
  assert (Hall : forallb (fun k => match str_of_Z k with
                                   | String d EmptyString => is_digit d
                                   | _ => false
                                   end) (zrange 10 0) = true)
    by (vm_compute; reflexivity).
  rewrite forallb_forall in Hall.
  specialize (Hall h (zrange_In 10 0 h ltac:(lia))).
  destruct (str_of_Z h) as [|d [|? ?]]; try discriminate Hall. eauto.
Qed.

Lemma two_digits (m : Z) :
  0 <= m < 60 ->
  exists d1 d2, fmt_0d 2 m = String d1 (String d2 EmptyString)
                /\ is_digit d1 = true /\ is_digit d2 = true.
Proof.
  intros Hm.
  assert (Hall : forallb (fun k => match fmt_0d 2 k with
                                   | String d1 (String d2 EmptyString) =>
                                       is_digit d1 && is_digit d2
                                   | _ => false
                                   end) (zrange 60 0) = true)
    by (vm_compute; reflexivity).
  rewrite forallb_forall in Hall.
  specialize (Hall m (zrange_In 60 0 m ltac:(lia))).
  destruct (fmt_0d 2 m) as [|d1 [|d2 [|? ?]]]; try discriminate Hall.
  apply andb_prop in Hall. destruct Hall. eauto.
Qed.

Lemma str_timedelta_under_ten_hours (n : Z) :
  0 <= n < 36000 -> exists s, str_timedelta n = Ok s /\ is_h_mm_ss s = true.
Proof.
  intros Hn. unfold str_timedelta.
  rewrite (Z.div_small n 86400), (Z.mod_small n 86400) by lia.
  cbn [Z.ltb Z.compare orb Z.eqb].
  assert (Hh : 0 <= n / 60 / 60 < 10).
  { split; [apply Z.div_pos; [apply Z.div_pos | ]; lia | ].
    apply Z.div_lt_upper_bound; [lia | ].
    apply Z.div_lt_upper_bound; lia. }
  destruct (one_digit _ Hh) as (h & -> & Dh).
  destruct (two_digits ((n / 60) mod 60) ltac:(apply Z.mod_pos_bound; lia))
    as (m1 & m2 & -> & Dm1 & Dm2).
  destruct (two_digits (n mod 60) ltac:(apply Z.mod_pos_bound; lia))
    as (s1 & s2 & -> & Ds1 & Ds2).
  eexists. split; [reflexivity | ].
  cbv [String.append is_h_mm_ss].
  now rewrite Dh, Dm1, Dm2, Ds1, Ds2.
Qed.

Section TranscriptLines.
Context {A : Arith}.

(** A segment that starts and ends before ten hours gives the line
    [[H:MM:SS - H:MM:SS] text]: both timestamps are the seconds truncated
    towards zero, with a single hour digit and two digits for the minutes
    and for the seconds; the text is stripped. *)
Theorem segment_line_under_ten_hours (segment : Segment) (a b : Z) :
  py_int (seg_start segment) = Ok a ->
  py_int (seg_end segment) = Ok b ->
  0 <= a < 36000 ->
  0 <= b < 36000 ->
  exists x y,
    str_timedelta a = Ok x /\ str_timedelta b = Ok y /\
    segment_line segment
      = Ok ("[" +:+ x +:+ " - " +:+ y +:+ "] " +:+ strip (seg_text segment) +:+ nl) /\
    is_h_mm_ss x = true /\ is_h_mm_ss y = true.
Proof.
  intros Ha Hb Hra Hrb.
  destruct (str_timedelta_under_ten_hours a Hra) as (x & Hx & Sx).
  destruct (str_timedelta_under_ten_hours b Hrb) as (y & Hy & Sy).
  exists x, y. split; [exact Hx | ]. split; [exact Hy | ].
  split; [ | now split].
  unfold segment_line. rewrite Ha. cbn [mbind Res_bind].
  rewrite Hx. cbn [mbind Res_bind]. rewrite Hb. cbn [mbind Res_bind].
  rewrite Hy. reflexivity.
Qed.

End TranscriptLines.

Lemma segment_line_under_ten_hours_witness :
  segment_line (A := Binary64)
    {| seg_start := fdiv (of_int 7325) (of_int 2);
       seg_end := of_int 3725;
       seg_text := " Hello there. " |}
  = Ok ("[1:01:02 - 1:02:05] Hello there." +:+ nl).
Proof.
  edestruct (segment_line_under_ten_hours (A := Binary64)
               {| seg_start := fdiv (of_int 7325) (of_int 2);
                  seg_end := of_int 3725;
                  seg_text := " Hello there. " |} 3662 3725)
    as (x & y & Hx & Hy & H & _).
  - reflexivity.
  - reflexivity.
  - lia.
  - lia.
  - injection Hx as <-. injection Hy as <-. exact H.
Defined.
